(** * Freight delay notification: the workflow, its activities and services

    A shallow embedding of the TypeScript sources
      - [src/types/index.ts]
      - [src/services/trafficService.ts]
      - [services/notificationService.ts]
      - [src/activities/index.ts]
      - [src/workflows/freightDelayWorkflow.ts]
      - [src/config/index.ts]
    followed by the properties of the orchestration that the specification
    states.

    Conventions of the embedding.
      - A JavaScript [number] that holds minutes, milliseconds or a count is
        an integer [Z]; template literals print it in decimal, as JavaScript
        does for an integer of magnitude below [10^21].  Where the code
        computes with doubles ([Math.random() * 60], [parseInt]) the rounding
        to 53 significant bits is written out.
      - A JavaScript string is a [string]; every character is one code unit
        below 256.
      - An optional field [f?: T] is an [option T]; [undefined] is [None].
      - [console.log] and [console.error] have no effect on any value that the
        program returns and are left out.
      - [Math.random()] and [Date.now()] read the [Runtime], which is threaded
        through every service and activity. *)

From Stdlib Require Import ZArith List String Ascii Bool Lia DecimalString.
From Stdlib Require Import DecimalPos DecimalZ.
Import ListNotations.

Open Scope string_scope.
Open Scope Z_scope.

(* ================================================================= *)
(** ** JavaScript values, exceptions and the runtime *)

Module Js.

(** What a [throw] carries: an [Error] instance with its [message], or any
    other value ([error instanceof Error] is false for it). *)
Inductive thrown : Type :=
| ErrorObj (message : string)
| NonError.

(** The result of running a piece of code: it returns or it throws. *)
Inductive outcome (A : Type) : Type :=
| Ok (a : A)
| Raise (e : thrown).
Arguments Ok {A} a.
Arguments Raise {A} e.

Definition map_outcome {A B} (f : A -> B) (o : outcome A) : outcome B :=
  match o with
  | Ok a => Ok (f a)
  | Raise e => Raise e
  end.

(** The ambient state that the code reads: the clock behind [Date.now()]
    and the generator behind [Math.random()].  A draw of [Math.random()]
    is the double [m / 2^53] for a mantissa [0 <= m < 2^53]; [random] lists
    the mantissas of the draws to come and [draws] counts those taken. *)
Record Runtime : Type := {
  now : Z;
  random : nat -> N;
  draws : nat
}.

(** Code that reads the runtime and may throw. *)
Definition M (A : Type) : Type := Runtime -> outcome A * Runtime.

Definition ret {A} (a : A) : M A := fun rt => (Ok a, rt).

Definition throw {A} (e : thrown) : M A := fun rt => (Raise e, rt).

Definition bind {A B} (m : M A) (k : A -> M B) : M B :=
  fun rt =>
    match m rt with
    | (Ok a, rt') => k a rt'
    | (Raise e, rt') => (Raise e, rt')
    end.

(** [try { body } catch (error) { handler }] *)
Definition try_catch {A} (body : M A) (handler : thrown -> M A) : M A :=
  fun rt =>
    match body rt with
    | (Ok a, rt') => (Ok a, rt')
    | (Raise e, rt') => handler e rt'
    end.

(** [Date.now()] *)
Definition Date_now : M Z := fun rt => (Ok (now rt), rt).

(** [Math.random()]: the mantissa of the next draw. *)
Definition Math_random : M N :=
  fun rt =>
    (Ok (random rt (draws rt)),
     {| now := now rt; random := random rt; draws := S (draws rt) |}).

(** The integer nearest to [n >= 0] that a double can hold: [n] keeps its
    53 leading bits, the rest is rounded to nearest, ties to even. *)
Definition round_to_double (n : Z) : Z :=
  let k := Z.log2 n - 52 in
  if k <=? 0 then n
  else
    let q := n / 2 ^ k in
    let r := n mod 2 ^ k in
    let half := 2 ^ (k - 1) in
    if r <? half then q * 2 ^ k
    else if half <? r then (q + 1) * 2 ^ k
    else if Z.even q then q * 2 ^ k
    else (q + 1) * 2 ^ k.

(** [Math.floor(u * k)] for the draw [u = m / 2^53] and an integer [k]: the
    product of the two doubles is the exact product [m * k / 2^53] rounded
    to a double, and scaling by [2^53] is exact. *)
Definition floor_scaled (m : N) (k : Z) : Z :=
  round_to_double (Z.of_N m * k) / 2 ^ 53.

(** [String(n)] for an integer [n], as a template literal prints it: the
    decimal digits of [n].  JavaScript prints an integer this way while its
    magnitude is below [10^21] and switches to the exponent form from there
    on; statements about the digits are made below that bound. *)
Definition Number_toString (n : Z) : string :=
  NilZero.string_of_int (Z.to_int n).

(** [`${x}`] for an optional string. *)
Definition template_opt (x : option string) : string :=
  match x with
  | Some s => s
  | None => "undefined"
  end.

(** A string is truthy when it is not empty. *)
Definition truthy (s : string) : bool :=
  match s with
  | EmptyString => false
  | String _ _ => true
  end.

(** White space of ECMAScript among the code units below 256:
    TAB, LF, VT, FF, CR, SP and NBSP. *)
Definition is_whitespace (c : ascii) : bool :=
  let n := N_of_ascii c in
  ((9 <=? n) && (n <=? 13) || (n =? 32) || (n =? 160))%N.

Fixpoint trimStart (s : string) : string :=
  match s with
  | EmptyString => EmptyString
  | String c s' => if is_whitespace c then trimStart s' else s
  end.

Fixpoint trimEnd (s : string) : string :=
  match s with
  | EmptyString => EmptyString
  | String c s' =>
      match trimEnd s' with
      | EmptyString => if is_whitespace c then EmptyString else String c EmptyString
      | t => String c t
      end
  end.

(** [s.trim()] *)
Definition trim (s : string) : string := trimEnd (trimStart s).

(** [s.length] *)
Definition length (s : string) : Z := Z.of_nat (String.length s).

(** [s.includes(sub)] *)
Fixpoint includes (s sub : string) : bool :=
  if prefix sub s then true
  else
    match s with
    | EmptyString => false
    | String _ s' => includes s' sub
    end.

(** One digit of [Number.prototype.toString(36)]. *)
Definition digit36 (d : N) : ascii :=
  if (d <? 10)%N then ascii_of_N (48 + d) else ascii_of_N (87 + d).

(** The first [n] digits of the base-36 expansion of [num / den]; the
    expansion stops when nothing is left. *)
Fixpoint fraction36 (n : nat) (num den : N) : string :=
  match n with
  | O => EmptyString
  | S n' =>
      if (num =? 0)%N then EmptyString
      else
        let scaled := (num * 36)%N in
        String (digit36 (scaled / den)) (fraction36 n' (scaled mod den) den)
  end.

(** [u.toString(36).substr(2, 9)] for the draw [u = m / 2^53]: the text
    after ["0."], nine characters at most.  These are the digits of the
    exact expansion; an engine may stop at the shortest expansion that reads
    back as the same double, so its last digits can differ.  The properties
    below say of an id only that it is there and starts with its prefix. *)
Definition random_suffix (m : N) : string := fraction36 9 m (2 ^ 53).

End Js.

Import Js.

Declare Scope js_scope.
Delimit Scope js_scope with js.
Notation "x <- m ;; k" := (Js.bind m (fun x => k))
  (at level 100, m at next level, right associativity) : js_scope.

(* ================================================================= *)
(** ** [src/types/index.ts] *)

Module DeliveryRoute.
Record t : Type := {
  origin : string;
  destination : string;
  waypoints : option (list string)
}.
End DeliveryRoute.

Inductive TrafficCondition : Type := light | moderate | heavy | severe.

(** The string that a [TrafficCondition] is at run time. *)
Definition condition_name (c : TrafficCondition) : string :=
  match c with
  | light => "light"
  | moderate => "moderate"
  | heavy => "heavy"
  | severe => "severe"
  end.

Module TrafficData.
Record t : Type := {
  estimatedDelayMinutes : Z;
  normalDurationMinutes : Z;
  currentDurationMinutes : Z;
  trafficCondition : TrafficCondition;
  route : DeliveryRoute.t
}.
End TrafficData.

Module DelayNotificationInput.
Record t : Type := {
  route : DeliveryRoute.t;
  customerEmail : string;
  delayThresholdMinutes : Z
}.
End DelayNotificationInput.

Module AIMessageRequest.
Record t : Type := {
  delayMinutes : Z;
  route : DeliveryRoute.t;
  trafficCondition : string
}.
End AIMessageRequest.

Module AIMessageResponse.
Record t : Type := {
  message : string;
  success : bool;
  error : option string
}.
End AIMessageResponse.

Module NotificationRequest.
Record t : Type := {
  customerEmail : string;
  subject : string;
  message : string;
  delayMinutes : Z
}.
End NotificationRequest.

Module NotificationResponse.
Record t : Type := {
  success : bool;
  messageId : option string;
  error : option string
}.
End NotificationResponse.

Module WorkflowResult.
Record t : Type := {
  delayDetected : bool;
  delayMinutes : Z;
  notificationSent : bool;
  message : option string;
  error : option string
}.
End WorkflowResult.

(* ================================================================= *)
(** ** [src/services/trafficService.ts] *)

Module TrafficService.

Open Scope js_scope.

(** The chain of comparisons in [getMockTrafficData] that sets
    [trafficCondition] from [baseDelayMinutes]. *)
Definition trafficConditionFor (baseDelayMinutes : Z) : TrafficCondition :=
  if baseDelayMinutes <? 15 then light
  else if baseDelayMinutes <? 30 then moderate
  else if baseDelayMinutes <? 45 then heavy
  else severe.

Definition getMockTrafficData (route : DeliveryRoute.t) : M TrafficData.t :=
  u <- Math_random ;;
  let baseDelayMinutes := floor_scaled u 60 in
  let normalDurationMinutes := 120 in
  let currentDurationMinutes := normalDurationMinutes + baseDelayMinutes in
  let trafficCondition := trafficConditionFor baseDelayMinutes in
  ret {| TrafficData.estimatedDelayMinutes := baseDelayMinutes;
         TrafficData.normalDurationMinutes := normalDurationMinutes;
         TrafficData.currentDurationMinutes := currentDurationMinutes;
         TrafficData.trafficCondition := trafficCondition;
         TrafficData.route := route |}.

Definition validateRoute (route : DeliveryRoute.t) : bool :=
  truthy (DeliveryRoute.origin route)
  && truthy (DeliveryRoute.destination route)
  && (Js.length (trim (DeliveryRoute.origin route)) >? 0)
  && (Js.length (trim (DeliveryRoute.destination route)) >? 0).

(** The call to the Directions API is commented out in the source; what
    runs is the mock. *)
Definition getRealTrafficData (route : DeliveryRoute.t) : M TrafficData.t :=
  getMockTrafficData route.

Definition getTrafficData (route : DeliveryRoute.t) : M TrafficData.t :=
  try_catch (getRealTrafficData route)
            (fun _error => getMockTrafficData route).

End TrafficService.

(* ================================================================= *)
(** ** [services/notificationService.ts] *)

Module NotificationService.

Open Scope js_scope.

Definition simulateEmailSending (request : NotificationRequest.t)
  : M NotificationResponse.t :=
  stamp <- Date_now ;;
  u <- Math_random ;;
  let messageId := "msg_" ++ Number_toString stamp ++ "_" ++ random_suffix u in
  ret {| NotificationResponse.success := true;
         NotificationResponse.messageId := Some messageId;
         NotificationResponse.error := None |}.

Definition sendDelayNotification (request : NotificationRequest.t)
  : M NotificationResponse.t :=
  try_catch
    (mockResponse <- simulateEmailSending request ;;
     ret mockResponse)
    (fun error =>
       ret {| NotificationResponse.success := false;
              NotificationResponse.messageId := None;
              NotificationResponse.error :=
                Some match error with
                     | ErrorObj message => message
                     | NonError => "Notification service unavailable"
                     end |}).

Definition createSMSMessage (request : NotificationRequest.t) : string :=
  "Freight Delay Alert: Your delivery is delayed by "
  ++ Number_toString (NotificationRequest.delayMinutes request)
  ++ " minutes due to traffic conditions. We apologize for the inconvenience. - Freight Team".

Definition simulateSMSSending (request : NotificationRequest.t)
                              (smsMessage : string)
  : M NotificationResponse.t :=
  stamp <- Date_now ;;
  u <- Math_random ;;
  let messageId := "sms_" ++ Number_toString stamp ++ "_" ++ random_suffix u in
  ret {| NotificationResponse.success := true;
         NotificationResponse.messageId := Some messageId;
         NotificationResponse.error := None |}.

Definition sendSMSNotification (request : NotificationRequest.t)
  : M NotificationResponse.t :=
  try_catch
    (let smsMessage := createSMSMessage request in
     mockResponse <- simulateSMSSending request smsMessage ;;
     ret mockResponse)
    (fun error =>
       ret {| NotificationResponse.success := false;
              NotificationResponse.messageId := None;
              NotificationResponse.error :=
                Some match error with
                     | ErrorObj message => message
                     | NonError => "SMS service unavailable"
                     end |}).

Definition validateRequest (request : NotificationRequest.t) : bool :=
  truthy (NotificationRequest.customerEmail request)
  && includes (NotificationRequest.customerEmail request) "@"
  && truthy (NotificationRequest.subject request)
  && truthy (NotificationRequest.message request)
  && (NotificationRequest.delayMinutes request >? 0).

Definition createDelaySubject (delayMinutes : Z) : string :=
  "Freight Delivery Delay Notice - " ++ Number_toString delayMinutes ++ " Minutes".

End NotificationService.

(* ================================================================= *)
(** ** [services/aiService.ts]

    The activities import [AIService]; its file is not among the sources.
    The two methods that [generateAIMessage] calls are taken as a
    parameter. *)

Module AIService.
Record t : Type := {
  validateRequest : AIMessageRequest.t -> bool;
  generateDelayMessage : AIMessageRequest.t -> M AIMessageResponse.t
}.
End AIService.

(* ================================================================= *)
(** ** [src/activities/index.ts] *)

(** The [data?: any] argument of [logWorkflowStep]: an object literal whose
    fields hold numbers, strings, booleans, optional strings or a route. *)
Inductive LogValue : Type :=
| LNum (n : Z)
| LStr (s : string)
| LBool (b : bool)
| LOpt (s : option string)
| LRoute (r : DeliveryRoute.t).

Definition LogData : Type := list (string * LogValue).

Module Activities.

Open Scope js_scope.

Definition fetchTrafficData (route : DeliveryRoute.t) : M TrafficData.t :=
  if negb (TrafficService.validateRoute route) then
    throw (ErrorObj "Invalid route: Origin and destination are required")
  else
    try_catch (TrafficService.getTrafficData route)
              (fun error => throw error).

Definition generateAIMessage (aiService : AIService.t)
                             (request : AIMessageRequest.t)
  : M AIMessageResponse.t :=
  if negb (AIService.validateRequest aiService request) then
    throw (ErrorObj "Invalid AI message request: Missing required fields")
  else
    try_catch
      (response <- AIService.generateDelayMessage aiService request ;;
       ret response)
      (fun error => throw error).

Definition sendDelayNotification (request : NotificationRequest.t)
  : M NotificationResponse.t :=
  if negb (NotificationService.validateRequest request) then
    throw (ErrorObj "Invalid notification request: Missing required fields")
  else
    try_catch
      (response <- NotificationService.sendDelayNotification request ;;
       ret response)
      (fun error => throw error).

Definition sendSMSNotification (request : NotificationRequest.t)
  : M NotificationResponse.t :=
  try_catch
    (response <- NotificationService.sendSMSNotification request ;;
     ret response)
    (fun error => throw error).

Definition shouldSendNotification (delayMinutes thresholdMinutes : Z) : bool :=
  let shouldSend := delayMinutes >? thresholdMinutes in
  shouldSend.

Definition createNotificationRequest (customerEmail aiMessage : string)
                                     (delayMinutes : Z)
  : NotificationRequest.t :=
  let subject := NotificationService.createDelaySubject delayMinutes in
  {| NotificationRequest.customerEmail := customerEmail;
     NotificationRequest.subject := subject;
     NotificationRequest.message := aiMessage;
     NotificationRequest.delayMinutes := delayMinutes |}.

(** Only writes to the console. *)
Definition logWorkflowStep (stepName : string) (data : option LogData) : unit :=
  tt.

Definition createAIMessageRequest (trafficData : TrafficData.t)
  : AIMessageRequest.t :=
  {| AIMessageRequest.delayMinutes := TrafficData.estimatedDelayMinutes trafficData;
     AIMessageRequest.route := TrafficData.route trafficData;
     AIMessageRequest.trafficCondition :=
       condition_name (TrafficData.trafficCondition trafficData) |}.

End Activities.

(* ================================================================= *)
(** ** The workflow runtime: [proxyActivities], the event history, replay

    A workflow body reaches the outside only through the functions that
    [proxyActivities<typeof activities>] hands out.  Each call suspends the
    workflow until the step has a result or has failed for good; the engine
    writes what came back into the history of the execution. *)

(** The keys of [activities], each with the arguments of one call. *)
Inductive activity : Type :=
| FetchTrafficData (route : DeliveryRoute.t)
| GenerateAIMessage (request : AIMessageRequest.t)
| SendDelayNotification (request : NotificationRequest.t)
| SendSMSNotification (request : NotificationRequest.t)
| ShouldSendNotification (delayMinutes thresholdMinutes : Z)
| CreateNotificationRequest (customerEmail aiMessage : string) (delayMinutes : Z)
| LogWorkflowStep (stepName : string) (data : option LogData)
| CreateAIMessageRequest (trafficData : TrafficData.t).

(** What the promise of a call resolves to. *)
Definition result_of (c : activity) : Type :=
  match c with
  | FetchTrafficData _ => TrafficData.t
  | GenerateAIMessage _ => AIMessageResponse.t
  | SendDelayNotification _ => NotificationResponse.t
  | SendSMSNotification _ => NotificationResponse.t
  | ShouldSendNotification _ _ => bool
  | CreateNotificationRequest _ _ _ => NotificationRequest.t
  | LogWorkflowStep _ _ => unit
  | CreateAIMessageRequest _ => AIMessageRequest.t
  end.

(** A step result as the history stores it. *)
Inductive value : Type :=
| VTrafficData (v : TrafficData.t)
| VAIMessageResponse (v : AIMessageResponse.t)
| VNotificationResponse (v : NotificationResponse.t)
| VBoolean (v : bool)
| VNotificationRequest (v : NotificationRequest.t)
| VUndefined
| VAIMessageRequest (v : AIMessageRequest.t).

Definition inject (c : activity) : result_of c -> value :=
  match c return result_of c -> value with
  | FetchTrafficData _ => VTrafficData
  | GenerateAIMessage _ => VAIMessageResponse
  | SendDelayNotification _ => VNotificationResponse
  | SendSMSNotification _ => VNotificationResponse
  | ShouldSendNotification _ _ => VBoolean
  | CreateNotificationRequest _ _ _ => VNotificationRequest
  | LogWorkflowStep _ _ => fun _ => VUndefined
  | CreateAIMessageRequest _ => VAIMessageRequest
  end.


(** One entry of the history: the step that was called and how it ended. *)
Record StepRecord : Type := {
  step : activity;
  result : outcome value
}.

(** A workflow body: it returns, throws, or awaits a step and goes on with
    the value the step resolved to, or with what it rejected with. *)
Inductive workflow (A : Type) : Type :=
| Return (a : A)
| Throw (e : thrown)
| Await (c : activity)
        (resolved : result_of c -> workflow A)
        (rejected : thrown -> workflow A).
Arguments Return {A} a.
Arguments Throw {A} e.
Arguments Await {A} c resolved rejected.

Module Wf.

(** [await proxy(args)] *)
Definition await (c : activity) : workflow (result_of c) :=
  Await c Return Throw.

Fixpoint bind {A B} (p : workflow A) (k : A -> workflow B) : workflow B :=
  match p with
  | Return a => k a
  | Throw e => Throw e
  | Await c resolved rejected =>
      Await c (fun x => bind (resolved x) k) (fun e => bind (rejected e) k)
  end.

(** [try { body } catch (error) { handler }] *)
Fixpoint try_catch {A} (body : workflow A) (handler : thrown -> workflow A)
  : workflow A :=
  match body with
  | Return a => Return a
  | Throw e => handler e
  | Await c resolved rejected =>
      Await c (fun x => try_catch (resolved x) handler)
              (fun e => try_catch (rejected e) handler)
  end.

End Wf.

Declare Scope wf_scope.
Delimit Scope wf_scope with wf.
Notation "x <- p ;; k" := (Wf.bind p (fun x => k))
  (at level 100, p at next level, right associativity) : wf_scope.

(** How the steps of one execution end: the workers, the retries and the
    world they act on, seen from the workflow.  [W] is whatever the steps
    read and change (clock, random generator, network, mail server). *)
Definition handler (W : Type) : Type :=
  forall c : activity, W -> outcome (result_of c) * W.

Definition history {A} (ex : list StepRecord * outcome A) : list StepRecord := fst ex.
Definition terminal {A} (ex : list StepRecord * outcome A) : outcome A := snd ex.

(** Appending to the history happens before the body goes on. *)
Definition record_step {A} (r : StepRecord) (ex : list StepRecord * outcome A)
  : list StepRecord * outcome A :=
  (r :: history ex, terminal ex).

Section Run.

Context {W : Type} (h : handler W).

(** One execution: every awaited step is handed to [h]; its outcome is
    appended to the history and decides how the body goes on. *)
Fixpoint run {A} (p : workflow A) (w : W) : list StepRecord * outcome A :=
  match p with
  | Return a => ([], Ok a)
  | Throw e => ([], Raise e)
  | Await c resolved rejected =>
      let '(o, w') := h c w in
      record_step {| step := c; result := map_outcome (inject c) o |}
        match o with
        | Ok x => run (resolved x) w'
        | Raise e => run (rejected e) w'
        end
  end.

End Run.


(** The steps that were called, in order. *)
Definition steps (hist : list StepRecord) : list activity :=
  map step hist.


(* ================================================================= *)
(** ** [src/workflows/freightDelayWorkflow.ts] *)

Module Workflow.

Open Scope wf_scope.

(** The functions that [proxyActivities<typeof activities>] returns. *)
Definition fetchTrafficData route := Wf.await (FetchTrafficData route).
Definition generateAIMessage request := Wf.await (GenerateAIMessage request).
Definition sendDelayNotification request := Wf.await (SendDelayNotification request).
Definition sendSMSNotification request := Wf.await (SendSMSNotification request).
Definition shouldSendNotification delayMinutes thresholdMinutes :=
  Wf.await (ShouldSendNotification delayMinutes thresholdMinutes).
Definition createNotificationRequest customerEmail aiMessage delayMinutes :=
  Wf.await (CreateNotificationRequest customerEmail aiMessage delayMinutes).
Definition logWorkflowStep stepName data := Wf.await (LogWorkflowStep stepName data).
Definition createAIMessageRequest trafficData :=
  Wf.await (CreateAIMessageRequest trafficData).

Definition freightDelayNotificationWorkflow (input : DelayNotificationInput.t)
  : workflow WorkflowResult.t :=
  _ <- logWorkflowStep "Workflow Started"
         (Some [("route", LRoute (DelayNotificationInput.route input));
                ("customerEmail", LStr (DelayNotificationInput.customerEmail input));
                ("threshold", LNum (DelayNotificationInput.delayThresholdMinutes input))]) ;;
  Wf.try_catch
    (_ <- logWorkflowStep "Step 1: Fetching Traffic Data" None ;;
     trafficData <- fetchTrafficData (DelayNotificationInput.route input) ;;
     _ <- logWorkflowStep "Step 1 Complete: Traffic Data Retrieved"
            (Some [("delay", LNum (TrafficData.estimatedDelayMinutes trafficData));
                   ("condition",
                    LStr (condition_name (TrafficData.trafficCondition trafficData)))]) ;;
     _ <- logWorkflowStep "Step 2: Checking Delay Threshold" None ;;
     shouldNotify <- shouldSendNotification
                       (TrafficData.estimatedDelayMinutes trafficData)
                       (DelayNotificationInput.delayThresholdMinutes input) ;;
     if negb shouldNotify then
       _ <- logWorkflowStep "Step 2 Complete: No Notification Required"
              (Some [("delay", LNum (TrafficData.estimatedDelayMinutes trafficData));
                     ("threshold",
                      LNum (DelayNotificationInput.delayThresholdMinutes input))]) ;;
       Return
         {| WorkflowResult.delayDetected := false;
            WorkflowResult.delayMinutes := TrafficData.estimatedDelayMinutes trafficData;
            WorkflowResult.notificationSent := false;
            WorkflowResult.message :=
              Some ("No notification required. Delay of "
                    ++ Number_toString (TrafficData.estimatedDelayMinutes trafficData)
                    ++ " minutes is below threshold of "
                    ++ Number_toString (DelayNotificationInput.delayThresholdMinutes input)
                    ++ " minutes.");
            WorkflowResult.error := None |}
     else
       _ <- logWorkflowStep "Step 3: Generating AI Message" None ;;
       aiRequest <- createAIMessageRequest trafficData ;;
       aiResponse <- generateAIMessage aiRequest ;;
       _ <- (if negb (AIMessageResponse.success aiResponse) then
               logWorkflowStep "Step 3 Warning: AI Message Generation Failed"
                 (Some [("error", LOpt (AIMessageResponse.error aiResponse));
                        ("usingFallback", LBool true)])
             else
               logWorkflowStep "Step 3 Complete: AI Message Generated" None) ;;
       _ <- logWorkflowStep "Step 4: Sending Notification" None ;;
       notificationRequest <- createNotificationRequest
                                (DelayNotificationInput.customerEmail input)
                                (AIMessageResponse.message aiResponse)
                                (TrafficData.estimatedDelayMinutes trafficData) ;;
       notificationResponse <- sendDelayNotification notificationRequest ;;
       if NotificationResponse.success notificationResponse then
         _ <- logWorkflowStep "Step 4 Complete: Notification Sent Successfully"
                (Some [("messageId",
                        LOpt (NotificationResponse.messageId notificationResponse));
                       ("customer", LStr (DelayNotificationInput.customerEmail input))]) ;;
         Return
           {| WorkflowResult.delayDetected := true;
              WorkflowResult.delayMinutes := TrafficData.estimatedDelayMinutes trafficData;
              WorkflowResult.notificationSent := true;
              WorkflowResult.message :=
                Some ("Delay notification sent successfully. Customer "
                      ++ DelayNotificationInput.customerEmail input
                      ++ " has been notified of "
                      ++ Number_toString (TrafficData.estimatedDelayMinutes trafficData)
                      ++ " minute delay.");
              WorkflowResult.error := None |}
       else
         _ <- logWorkflowStep "Step 4 Warning: Notification Failed"
                (Some [("error", LOpt (NotificationResponse.error notificationResponse));
                       ("tryingSMS", LBool true)]) ;;
         smsResponse <- sendSMSNotification notificationRequest ;;
         if NotificationResponse.success smsResponse then
           _ <- logWorkflowStep "Step 4 Complete: SMS Notification Sent"
                  (Some [("messageId",
                          LOpt (NotificationResponse.messageId smsResponse))]) ;;
           Return
             {| WorkflowResult.delayDetected := true;
                WorkflowResult.delayMinutes :=
                  TrafficData.estimatedDelayMinutes trafficData;
                WorkflowResult.notificationSent := true;
                WorkflowResult.message :=
                  Some ("Delay notification sent via SMS after email failed. Customer notified of "
                        ++ Number_toString (TrafficData.estimatedDelayMinutes trafficData)
                        ++ " minute delay.");
                WorkflowResult.error := None |}
         else
           _ <- logWorkflowStep "Step 4 Failed: Both Email and SMS Failed"
                  (Some [("emailError",
                          LOpt (NotificationResponse.error notificationResponse));
                         ("smsError", LOpt (NotificationResponse.error smsResponse))]) ;;
           Return
             {| WorkflowResult.delayDetected := true;
                WorkflowResult.delayMinutes :=
                  TrafficData.estimatedDelayMinutes trafficData;
                WorkflowResult.notificationSent := false;
                WorkflowResult.message := None;
                WorkflowResult.error :=
                  Some ("Failed to send notification: Email failed ("
                        ++ template_opt (NotificationResponse.error notificationResponse)
                        ++ "), SMS failed ("
                        ++ template_opt (NotificationResponse.error smsResponse)
                        ++ ")") |})
    (fun error =>
       _ <- logWorkflowStep "Workflow Error"
              (Some [("error",
                      LStr match error with
                           | ErrorObj message => message
                           | NonError => "Unknown error"
                           end)]) ;;
       Return
         {| WorkflowResult.delayDetected := false;
            WorkflowResult.delayMinutes := 0;
            WorkflowResult.notificationSent := false;
            WorkflowResult.message := None;
            WorkflowResult.error :=
              Some match error with
                   | ErrorObj message => message
                   | NonError => "Unknown workflow error"
                   end |}).

End Workflow.

(** Modelled from the spec: the Step Executor of section 4.1 over the
    [activities] that [worker.ts] registers.  Every step of the workflow
    runs the function of that name as a single attempt, and the outcome of
    that attempt is what the workflow gets.  The worker runtime that stands
    between the two is not among the sources: it may run further attempts
    under the retry policy ([RetryPolicy] below) and hands a failure on
    wrapped in an error of its own; neither is modelled here, so this
    handler is used only where its steps return. *)
Definition worker (aiService : AIService.t) : handler Runtime :=
  fun c =>
    match c return M (result_of c) with
    | FetchTrafficData route => Activities.fetchTrafficData route
    | GenerateAIMessage request => Activities.generateAIMessage aiService request
    | SendDelayNotification request => Activities.sendDelayNotification request
    | SendSMSNotification request => Activities.sendSMSNotification request
    | ShouldSendNotification delayMinutes thresholdMinutes =>
        ret (Activities.shouldSendNotification delayMinutes thresholdMinutes)
    | CreateNotificationRequest customerEmail aiMessage delayMinutes =>
        ret (Activities.createNotificationRequest customerEmail aiMessage delayMinutes)
    | LogWorkflowStep stepName data =>
        ret (Activities.logWorkflowStep stepName data)
    | CreateAIMessageRequest trafficData =>
        ret (Activities.createAIMessageRequest trafficData)
    end.

(* ================================================================= *)
(** ** Reading a history *)

(** The step [c] was called. *)
Definition invoked (c : activity) (hist : list StepRecord) : Prop :=
  In c (steps hist).

(** The step [c] was called and resolved to [v]. *)
Definition resolved_to (c : activity) (v : value) (hist : list StepRecord) : Prop :=
  In {| step := c; result := Ok v |} hist.

(** The step [c] was called and failed for good with [e]. *)
Definition rejected_with (c : activity) (e : thrown) (hist : list StepRecord) : Prop :=
  In {| step := c; result := Raise e |} hist.



(** The record [r] stands in the history and the step [c] is called after
    it. *)
Fixpoint precedes (r : StepRecord) (c : activity) (hist : list StepRecord) : Prop :=
  match hist with
  | [] => False
  | first :: rest => (first = r /\ In c (steps rest)) \/ precedes r c rest
  end.

(** Every [logWorkflowStep] step of the execution comes back. *)
Definition logging_succeeds {W} (h : handler W) : Prop :=
  forall stepName data w, fst (h (LogWorkflowStep stepName data) w) = Ok tt.


(** Whatever the primary send step resolves to was returned by
    [sendDelayNotification] of the activities, in some state of the
    runtime. *)
Definition primary_send_runs_activity {W} (h : handler W) : Prop :=
  forall request w response,
    fst (h (SendDelayNotification request) w) = Ok response ->
    exists rt, fst (Activities.sendDelayNotification request rt) = Ok response.

(** A string of white space only (the empty string too). *)
Fixpoint blank (s : string) : bool :=
  match s with
  | EmptyString => true
  | String c s' => is_whitespace c && blank s'
  end.

(** What the [catch] block of the workflow returns for [error]. *)
Definition erroredResult (error : thrown) : WorkflowResult.t :=
  {| WorkflowResult.delayDetected := false;
     WorkflowResult.delayMinutes := 0;
     WorkflowResult.notificationSent := false;
     WorkflowResult.message := None;
     WorkflowResult.error :=
       Some match error with
            | ErrorObj message => message
            | NonError => "Unknown workflow error"
            end |}.

(* ================================================================= *)
(** ** The retry policy of the steps *)

Module RetryPolicy.

(** Intervals are in milliseconds. *)
Record t : Type := {
  initialInterval : Z;
  maximumInterval : Z;
  maximumAttempts : nat;
  backoffCoefficient : Z
}.

(** The [retry] option that the workflow passes to [proxyActivities]. *)
Definition configured : t :=
  {| initialInterval := 1000;
     maximumInterval := 10000;
     maximumAttempts := 3;
     backoffCoefficient := 2 |}.

(** How one attempt of a step ends.  A failure carries the step's own
    word on whether it is terminal. *)
Inductive attempt (A : Type) : Type :=
| Completed (a : A)
| Failed (e : thrown) (classifiedTerminal : bool).
Arguments Completed {A} a.
Arguments Failed {A} e classifiedTerminal.

(** Modelled from the spec: the retry engine that stands behind
    [proxyActivities]; it belongs to the workflow runtime and is not among
    the sources.  Section 4.2: attempts are numbered from 1; a failure is
    retried unless the step classifies it as terminal or the attempt is
    number [maximumAttempts]; the interval starts at [initialInterval],
    grows by [backoffCoefficient] from one retry to the next and is capped
    at [maximumInterval].  [attempts n] is how attempt [n] ends; the result
    lists the delays that were waited and how the step ended ([None] only
    if the loop is cut short). *)
Fixpoint retryLoop {A} (policy : t) (attempts : nat -> attempt A)
                   (fuel n : nat) (interval : Z)
  : list Z * option (outcome A) :=
  match fuel with
  | O => ([], None)
  | S fuel' =>
      match attempts n with
      | Completed a => ([], Some (Ok a))
      | Failed e classifiedTerminal =>
          if classifiedTerminal || (n =? maximumAttempts policy)%nat then
            ([], Some (Raise e))
          else
            let delay := Z.min interval (maximumInterval policy) in
            let rest := retryLoop policy attempts fuel' (S n)
                                  (interval * backoffCoefficient policy) in
            (delay :: fst rest, snd rest)
      end
  end.

(** Modelled from the spec: one step under the retry engine, from attempt
    1 with the initial interval. *)
Definition executeStep {A} (policy : t) (attempts : nat -> attempt A)
  : list Z * option (outcome A) :=
  retryLoop policy attempts (maximumAttempts policy) 1 (initialInterval policy).

(** Modelled from the spec: the delay computed at attempt [n], in the
    words of section 4.2. *)
Definition computedDelay (policy : t) (n : nat) : Z :=
  Z.min (initialInterval policy * backoffCoefficient policy ^ (Z.of_nat n - 1))
        (maximumInterval policy).

(** Modelled from the spec: how the retry engine takes one attempt of an
    activity function.  The activities throw plain [Error]s and the [retry]
    option of the workflow names no error type as non-retryable, so the
    step classifies no failure as terminal. *)
Definition attempt_of {A} (o : outcome A) : attempt A :=
  match o with
  | Ok a => Completed a
  | Raise e => Failed e false
  end.

(** Modelled from the spec: the attempts of the fetch step for [route];
    attempt [n] runs [fetchTrafficData] in the runtime [rts n]. *)
Definition fetch_attempts (route : DeliveryRoute.t) (rts : nat -> Runtime)
  : nat -> attempt TrafficData.t :=
  fun n => attempt_of (fst (Activities.fetchTrafficData route (rts n))).

End RetryPolicy.

(* ================================================================= *)
(** ** Scenarios *)

Module Scenario.

(** A scripted set of step results, in the manner of a test double: what
    the traffic, message and send steps come back with, and how the log
    step of a given name ends.  The three pure steps run the activities. *)
Record Script : Type := {
  traffic : outcome TrafficData.t;
  aiMessage : outcome AIMessageResponse.t;
  primary : outcome NotificationResponse.t;
  fallback : outcome NotificationResponse.t;
  logging : string -> outcome unit
}.

Definition scripted (s : Script) : handler unit :=
  fun c w =>
    match c return outcome (result_of c) * unit with
    | FetchTrafficData _ => (traffic s, w)
    | GenerateAIMessage _ => (aiMessage s, w)
    | SendDelayNotification _ => (primary s, w)
    | SendSMSNotification _ => (fallback s, w)
    | ShouldSendNotification delayMinutes thresholdMinutes =>
        (Ok (Activities.shouldSendNotification delayMinutes thresholdMinutes), w)
    | CreateNotificationRequest customerEmail aiMessage delayMinutes =>
        (Ok (Activities.createNotificationRequest customerEmail aiMessage delayMinutes), w)
    | LogWorkflowStep stepName _ => (logging s stepName, w)
    | CreateAIMessageRequest trafficData =>
        (Ok (Activities.createAIMessageRequest trafficData), w)
    end.

Definition route : DeliveryRoute.t :=
  {| DeliveryRoute.origin := "New York, NY";
     DeliveryRoute.destination := "Philadelphia, PA";
     DeliveryRoute.waypoints := None |}.

Definition input (threshold : Z) : DelayNotificationInput.t :=
  {| DelayNotificationInput.route := route;
     DelayNotificationInput.customerEmail := "customer@example.com";
     DelayNotificationInput.delayThresholdMinutes := threshold |}.

Definition snapshot (delay : Z) : TrafficData.t :=
  {| TrafficData.estimatedDelayMinutes := delay;
     TrafficData.normalDurationMinutes := 120;
     TrafficData.currentDurationMinutes := 120 + delay;
     TrafficData.trafficCondition := TrafficService.trafficConditionFor delay;
     TrafficData.route := route |}.

Definition composed : AIMessageResponse.t :=
  {| AIMessageResponse.message := "Your delivery is delayed by 45 minutes.";
     AIMessageResponse.success := true;
     AIMessageResponse.error := None |}.

Definition delivered (id : string) : NotificationResponse.t :=
  {| NotificationResponse.success := true;
     NotificationResponse.messageId := Some id;
     NotificationResponse.error := None |}.

Definition rejected (reason : string) : NotificationResponse.t :=
  {| NotificationResponse.success := false;
     NotificationResponse.messageId := None;
     NotificationResponse.error := Some reason |}.

(** Severe traffic, both channels as given, every log step fine. *)
Definition sends (primary fallback : NotificationResponse.t) : Script :=
  {| traffic := Ok (snapshot 45);
     aiMessage := Ok composed;
     primary := Ok primary;
     fallback := Ok fallback;
     logging := fun _ => Ok tt |}.

(** The same, but the log step named [failing] fails for good. *)
Definition log_outage (failing : string) : Script :=
  {| traffic := Ok (snapshot 45);
     aiMessage := Ok composed;
     primary := Ok (delivered "msg_1");
     fallback := Ok (delivered "sms_1");
     logging := fun stepName =>
                  if String.eqb stepName failing
                  then Raise (ErrorObj "Activity task failed")
                  else Ok tt |}.

(** An AI service that answers with a fixed text. *)
Definition cannedAI : AIService.t :=
  {| AIService.validateRequest := fun _ => true;
     AIService.generateDelayMessage := fun _ => ret composed |}.

(** A runtime whose clock reads [clock] and whose every draw of
    [Math.random()] has mantissa [m]. *)
Definition runtime (clock : Z) (m : N) : Runtime :=
  {| now := clock; random := fun _ => m; draws := O |}.


(** Every attempt of a step fails the same way, never classified. *)
Definition always_failing (e : thrown) : nat -> RetryPolicy.attempt unit :=
  fun _ => RetryPolicy.Failed e false.

End Scenario.

(* ================================================================= *)
(** ** Executions of the workflow *)

(** One execution of the workflow for [input], its steps ending as [h]
    says, from the state [w] of the world. *)
Definition execute {W} (h : handler W) (input : DelayNotificationInput.t) (w : W)
  : list StepRecord * outcome WorkflowResult.t :=
  run h (Workflow.freightDelayNotificationWorkflow input) w.




(** The steps that only the fallback branch of the workflow calls: the SMS
    send and the three log lines around it. *)
Definition is_fallback_step (c : activity) : bool :=
  match c with
  | SendSMSNotification _ => true
  | LogWorkflowStep stepName _ =>
      String.eqb stepName "Step 4 Warning: Notification Failed"
      || String.eqb stepName "Step 4 Complete: SMS Notification Sent"
      || String.eqb stepName "Step 4 Failed: Both Email and SMS Failed"
  | _ => false
  end.

(** The runtime after one draw of [Math.random()]. *)
Definition after_draw (rt : Runtime) : Runtime :=
  {| now := now rt; random := random rt; draws := S (draws rt) |}.


(* ================================================================= *)
(** ** Counting the steps of a history *)

Definition is_primary_send (c : activity) : bool :=
  match c with
  | SendDelayNotification _ => true
  | _ => false
  end.

Definition is_sms_send (c : activity) : bool :=
  match c with
  | SendSMSNotification _ => true
  | _ => false
  end.

Definition is_fetch (c : activity) : bool :=
  match c with
  | FetchTrafficData _ => true
  | _ => false
  end.


(** How many of the steps called satisfy [p]. *)
Definition count_steps (p : activity -> bool) (hist : list StepRecord) : nat :=
  List.length (filter p (steps hist)).

(** The result of the workflow when the email went out. *)
Definition emailedResult (input : DelayNotificationInput.t) (delay : Z)
  : WorkflowResult.t :=
  {| WorkflowResult.delayDetected := true;
     WorkflowResult.delayMinutes := delay;
     WorkflowResult.notificationSent := true;
     WorkflowResult.message :=
       Some ("Delay notification sent successfully. Customer "
             ++ DelayNotificationInput.customerEmail input
             ++ " has been notified of "
             ++ Number_toString delay
             ++ " minute delay.");
     WorkflowResult.error := None |}.

(* ================================================================= *)
(** ** [src/config/index.ts] *)

Module Config.

(** [process.env]: a variable is unset or holds a string. *)
Definition Env : Type := string -> option string.

(** [process.env.NAME || fallback]: an unset variable and an empty one are
    both falsy. *)
Definition or_default (x : option string) (fallback : string) : string :=
  match x with
  | Some s => if truthy s then s else fallback
  | None => fallback
  end.

(** The value of a character as a digit, up to radix 36. *)
Definition digit_value (c : ascii) : option N :=
  let n := N_of_ascii c in
  if ((48 <=? n) && (n <=? 57))%N then Some (n - 48)%N
  else if ((97 <=? n) && (n <=? 122))%N then Some (n - 87)%N
  else if ((65 <=? n) && (n <=? 90))%N then Some (n - 55)%N
  else None.

(** The number that the longest prefix of digits of [s] in [radix] spells,
    read after [acc]; [None] when there is no digit and [seen] is false. *)
Fixpoint parse_digits (radix : N) (s : string) (acc : N) (seen : bool) : option N :=
  match s with
  | EmptyString => if seen then Some acc else None
  | String c s' =>
      match digit_value c with
      | Some d =>
          if (d <? radix)%N then parse_digits radix s' (acc * radix + d)%N true
          else if seen then Some acc else None
      | None => if seen then Some acc else None
      end
  end.

(** [parseInt(s)] with no radix: leading white space is skipped, a sign is
    read, ["0x"] or ["0X"] selects radix 16 and anything else radix 10, and
    the digits that follow are read; [None] is [NaN].  The number read is
    the double nearest to what the digits spell, so it is exact up to
    [2^53]; digits that spell more than a double can hold (JavaScript reads
    [Infinity]) are outside the model. *)
Definition parseInt (s : string) : option Z :=
  let s1 := trimStart s in
  let '(sign, s2) :=
    match s1 with
    | String "-"%char rest => (-1, rest)
    | String "+"%char rest => (1, rest)
    | _ => (1, s1)
    end in
  let '(radix, s3) :=
    match s2 with
    | String "0"%char (String "x"%char rest) => (16%N, rest)
    | String "0"%char (String "X"%char rest) => (16%N, rest)
    | _ => (10%N, s2)
    end in
  match parse_digits radix s3 0%N false with
  | Some n => Some (sign * round_to_double (Z.of_N n))
  | None => None
  end.

(** [APIConfig], with [delayThresholdMinutes] possibly [NaN]. *)
Record APIConfig : Type := {
  openaiApiKey : string;
  googleMapsApiKey : string;
  sendgridApiKey : string;
  temporalAddress : string;
  temporalNamespace : string;
  delayThresholdMinutes : option Z;
  fromEmail : string;
  customerEmail : string
}.

Definition getConfig (env : Env) : APIConfig :=
  {| openaiApiKey := or_default (env "GOOGLE_MAPS_API_KEY") "demo-key";
     googleMapsApiKey := or_default (env "GOOGLE_MAPS_API_KEY") "demo-key";
     sendgridApiKey := or_default (env "SENDGRID_API_KEY") "demo-key";
     temporalAddress := or_default (env "TEMPORAL_ADDRESS") "localhost:7233";
     temporalNamespace := or_default (env "TEMPORAL_NAMESPACE") "default";
     delayThresholdMinutes :=
       parseInt (or_default (env "DELAY_THRESHOLD_MINUTES") "30");
     fromEmail := or_default (env "FROM_EMAIL") "noreply@freightnotifications.com";
     customerEmail := or_default (env "CUSTOMER_EMAIL") "customer@example.com" |}.

(** [getAppConfig()] for the configuration read from [env]. *)
Definition getAppConfig (env : Env) : option Z * string :=
  (delayThresholdMinutes (getConfig env), customerEmail (getConfig env)).

(** An environment with the one variable [name] set to [value]. *)
Definition only (name value : string) : Env :=
  fun k => if String.eqb k name then Some value else None.

End Config.

(* ================================================================= *)
(** ** More scenarios *)

Module Example.

(** The answer of an AI service that fell back to its template. *)
Definition templated : AIMessageResponse.t :=
  {| AIMessageResponse.message := "Your delivery is running late.";
     AIMessageResponse.success := false;
     AIMessageResponse.error := Some "quota exceeded" |}.

(** Severe traffic, a templated message, the email goes out. *)
Definition degraded : Scenario.Script :=
  {| Scenario.traffic := Ok (Scenario.snapshot 45);
     Scenario.aiMessage := Ok templated;
     Scenario.primary := Ok (Scenario.delivered "msg_1");
     Scenario.fallback := Ok (Scenario.delivered "sms_1");
     Scenario.logging := fun _ => Ok tt |}.

(** The request that the workflow builds in the scenarios of [Scenario]. *)
Definition request : NotificationRequest.t :=
  Activities.createNotificationRequest
    "customer@example.com" "Your delivery is delayed by 45 minutes." 45.


(** A route whose origin is white space only. *)
Definition no_origin : DeliveryRoute.t :=
  {| DeliveryRoute.origin := "   ";
     DeliveryRoute.destination := "Philadelphia, PA";
     DeliveryRoute.waypoints := None |}.

(** A runtime for each attempt of a step: the clock moves on and every
    draw of [Math.random()] has mantissa [m]. *)
Definition runtimes (m : N) : nat -> Runtime :=
  fun n => Scenario.runtime (1700000000000 + 1000 * Z.of_nat n) m.

End Example.

(* ################################################################# *)
(** * Properties *)

Lemma Ok_injective : forall A (a b : A), Ok a = Ok b -> a = b.
Proof. intros A a b H. injection H as H. exact H. Qed.

(* ================================================================= *)
(** ** Strings *)

Lemma trimStart_blank : forall s, blank s = true -> trimStart s = EmptyString.
Proof.
  induction s as [|c s IH]; cbn [blank trimStart]; intro H; [reflexivity|].
  apply andb_true_iff in H as [Hc Hs]. rewrite Hc. auto.
Qed.

Lemma trimStart_not_blank : forall s, blank s = false -> blank (trimStart s) = false.
Proof.
  induction s as [|c s IH]; cbn [blank trimStart]; intro H; [discriminate|].
  destruct (is_whitespace c) eqn:Hc; cbn [andb] in H.
  - auto.
  - cbn [blank]. rewrite Hc. reflexivity.
Qed.

Lemma trimEnd_blank : forall s, blank s = true -> trimEnd s = EmptyString.
Proof.
  induction s as [|c s IH]; cbn [blank trimEnd]; intro H; [reflexivity|].
  apply andb_true_iff in H as [Hc Hs]. rewrite (IH Hs), Hc. reflexivity.
Qed.

Lemma trimEnd_not_blank : forall s, blank s = false -> trimEnd s <> EmptyString.
Proof.
  induction s as [|c s IH]; cbn [blank trimEnd]; intro H; [discriminate|].
  destruct (trimEnd s) eqn:Ht.
  - destruct (is_whitespace c) eqn:Hc; [|discriminate].
    cbn [andb] in H. exfalso. apply (IH H). reflexivity.
  - discriminate.
Qed.

(** [s.trim()] is empty exactly for the strings of white space. *)
Lemma trim_blank : forall s, blank s = true -> trim s = EmptyString.
Proof. intros s H. unfold trim. rewrite (trimStart_blank s H). reflexivity. Qed.

Lemma trim_not_blank : forall s, blank s = false -> trim s <> EmptyString.
Proof. intros s H. unfold trim. apply trimEnd_not_blank, trimStart_not_blank, H. Qed.

Lemma length_positive : forall s, (Js.length s >? 0) = truthy s.
Proof.
  destruct s; unfold Js.length; cbn [String.length truthy]; [reflexivity|].
  apply Z.gtb_lt. lia.
Qed.

Lemma truthy_not_empty : forall s, s <> EmptyString -> truthy s = true.
Proof. destruct s; [congruence | reflexivity]. Qed.

Lemma truthy_not_blank : forall s, blank s = false -> truthy s = true.
Proof. destruct s; [discriminate | reflexivity]. Qed.

Lemma includes_unfold : forall s sub,
  includes s sub
  = if prefix sub s then true
    else match s with EmptyString => false | String _ s' => includes s' sub end.
Proof. destruct s; reflexivity. Qed.

Lemma prefix_append : forall s t, prefix s (s ++ t) = true.
Proof.
  induction s as [|c s IH]; intro t.
  - destruct t; reflexivity.
  - cbn [append prefix]. destruct (ascii_dec c c); [apply IH | congruence].
Qed.

Lemma includes_here : forall s t, includes (s ++ t) s = true.
Proof. intros. rewrite includes_unfold, prefix_append. reflexivity. Qed.

Lemma includes_skip : forall c s sub,
  includes s sub = true -> includes (String c s) sub = true.
Proof.
  intros c s sub H. cbn [includes]. rewrite H.
  destruct (prefix sub (String c s)); reflexivity.
Qed.



(* ================================================================= *)
(** ** The traffic service and the fetch activity *)

(** A route passes [validateRoute] exactly when neither end is blank. *)
Lemma validateRoute_blank : forall route,
  TrafficService.validateRoute route
  = negb (blank (DeliveryRoute.origin route))
    && negb (blank (DeliveryRoute.destination route)).
Proof.
  intros [o d wp]. unfold TrafficService.validateRoute.
  cbn [DeliveryRoute.origin DeliveryRoute.destination].
  rewrite !length_positive.
  destruct (blank o) eqn:Ho.
  - rewrite (trim_blank o Ho). cbn [truthy negb andb].
    rewrite !andb_false_r. reflexivity.
  - rewrite (truthy_not_empty _ (trim_not_blank o Ho)), (truthy_not_blank o Ho).
    destruct (blank d) eqn:Hd.
    + rewrite (trim_blank d Hd). cbn [truthy negb andb].
      rewrite !andb_false_r. reflexivity.
    + rewrite (truthy_not_empty _ (trim_not_blank d Hd)), (truthy_not_blank d Hd).
      reflexivity.
Qed.

(** Rounding moves a number by half a unit in the last place at most, not
    at all when the number fits, and never below the power of two under
    it. *)
Lemma round_to_double_error : forall n,
  0 <= n ->
  exists e u,
    round_to_double n = n + e
    /\ u = 2 ^ Z.max 0 (Z.log2 n - 52)
    /\ - u <= 2 * e <= u
    /\ (n mod u = 0 -> e = 0)
    /\ (0 < n -> 2 ^ Z.log2 n <= n + e).
Proof.
  intros n Hn. unfold round_to_double.
  destruct (Z.log2 n - 52 <=? 0) eqn:Hk;
    [apply Z.leb_le in Hk | apply Z.leb_gt in Hk].
  - exists 0, 1. rewrite Z.max_l by exact Hk.
    repeat split; try lia.
    intro Hpos. destruct (Z.log2_spec n Hpos) as [Hlow _]. lia.
  - rewrite Z.max_r by lia.
    set (k := Z.log2 n - 52) in *.
    assert (Hpow : 2 ^ k = 2 * 2 ^ (k - 1)).
    { replace k with (Z.succ (k - 1)) at 1 by lia. apply Z.pow_succ_r. lia. }
    assert (Hhalf : 0 < 2 ^ (k - 1)) by (apply Z.pow_pos_nonneg; lia).
    pose proof (Z.mod_pos_bound n (2 ^ k) ltac:(lia)) as Hr.
    pose proof (Z.div_mod n (2 ^ k) ltac:(lia)) as Hdm.
    assert (Hq : 0 < n -> 2 ^ Z.log2 n <= n / 2 ^ k * 2 ^ k).
    { intro Hpos. destruct (Z.log2_spec n Hpos) as [Hlow _].
      replace (Z.log2 n) with (52 + k) in * by (unfold k; lia).
      rewrite Z.pow_add_r in * by lia.
      apply Z.mul_le_mono_nonneg_r; [lia|].
      apply Z.div_le_lower_bound; lia. }
    remember (n mod 2 ^ k) as r eqn:Er.
    generalize dependent (n / 2 ^ k).
    generalize dependent (2 ^ k). generalize dependent (2 ^ (k - 1)).
    intros half Hhalf u -> Er Hr q Hdm Hq.
    assert (Hfit : n mod (2 * half) = 0 -> r = 0) by congruence.
    clear Er.
    destruct (r <? half) eqn:H1; [apply Z.ltb_lt in H1 | apply Z.ltb_ge in H1].
    + exists (- r), (2 * half). repeat split; try lia.
    + destruct (half <? r) eqn:H2; [apply Z.ltb_lt in H2 | apply Z.ltb_ge in H2].
      * exists (2 * half - r), (2 * half). repeat split; try lia.
      * destruct (Z.even q).
        -- exists (- r), (2 * half). repeat split; try lia.
        -- exists (2 * half - r), (2 * half). repeat split; try lia.
Qed.

(** Below [2^59] the unit in the last place is 64 at most. *)
Lemma round_to_double_near : forall n,
  0 <= n < 2 ^ 59 ->
  n - 32 <= round_to_double n <= n + 32
  /\ (n mod 64 = 0 -> round_to_double n = n).
Proof.
  intros n Hn.
  destruct (round_to_double_error n ltac:(lia)) as (e & u & -> & Hu & He & Hfit & _).
  assert (Hk : Z.max 0 (Z.log2 n - 52) <= 6).
  { destruct (Z.eq_dec n 0) as [-> | Hnz]; [cbn; lia|].
    assert (Z.log2 n < 59) by (apply Z.log2_lt_pow2; lia). lia. }
  assert (Hk0 : 0 <= Z.max 0 (Z.log2 n - 52)) by lia.
  generalize dependent (Z.max 0 (Z.log2 n - 52)). intros k Hu Hk Hk0.
  assert (Hdiv : exists c, 0 < c /\ 64 = c * u).
  { exists (2 ^ (6 - k)). split; [apply Z.pow_pos_nonneg; lia|].
    subst u. rewrite <- Z.pow_add_r by lia. replace (6 - k + k) with 6 by lia.
    reflexivity. }
  destruct Hdiv as (c & Hc & Hcu).
  assert (0 < u) by (subst u; apply Z.pow_pos_nonneg; lia).
  split; [nia|].
  intro H64. rewrite Hfit; [lia|].
  apply Z.mod_divide in H64; [|lia]. destruct H64 as [z Hz].
  apply Z.mod_divide; [lia|]. exists (z * c). nia.
Qed.

Lemma round_to_double_large : forall n,
  2 ^ 59 <= n -> 2 ^ 59 <= round_to_double n.
Proof.
  intros n Hn.
  destruct (round_to_double_error n ltac:(lia)) as (e & u & -> & _ & _ & _ & Hlow).
  specialize (Hlow ltac:(lia)).
  assert (59 <= Z.log2 n) by (apply Z.log2_le_pow2; lia).
  assert (2 ^ 59 <= 2 ^ Z.log2 n) by (apply Z.pow_le_mono_r; lia).
  lia.
Qed.

Lemma floor_scaled_nonneg : forall m k, 0 <= k -> 0 <= floor_scaled m k.
Proof.
  intros m k Hk. unfold floor_scaled. apply Z.div_pos; [|reflexivity].
  assert (Hn : 0 <= Z.of_N m * k) by (apply Z.mul_nonneg_nonneg; lia).
  destruct (round_to_double_error (Z.of_N m * k) Hn)
    as (e & u & -> & _ & _ & Hfit & Hlow).
  destruct (Z.eq_dec (Z.of_N m * k) 0) as [H0 | Hnz].
  - rewrite H0 in *. rewrite Hfit by apply Zmod_0_l. lia.
  - specialize (Hlow ltac:(lia)).
    assert (0 < 2 ^ Z.log2 (Z.of_N m * k))
      by (apply Z.pow_pos_nonneg; [lia | apply Z.log2_nonneg]).
    lia.
Qed.

(** The product of a draw with 60 is a multiple of 60 and rounding moves it
    by 32 at most: the scaled draw is below a quarter of 60 exactly when the
    draw is below that quarter. *)
Lemma floor_scaled_60_quarter : forall m j,
  1 <= j <= 4 ->
  floor_scaled m 60 < 15 * j <-> Z.of_N m < j * 2 ^ 51.
Proof.
  intros m j Hj. unfold floor_scaled.
  assert (Hx : 0 <= Z.of_N m) by lia.
  generalize dependent (Z.of_N m). clear m. intros x Hx.
  pose proof (round_to_double_near (x * 60)) as Hnear.
  pose proof (round_to_double_large (x * 60)) as Hlarge.
  change (2 ^ 59) with 576460752303423488 in Hnear, Hlarge.
  change (2 ^ 51) with 2251799813685248.
  change (2 ^ 53) with 9007199254740992.
  split.
  - intro H.
    destruct (Z.lt_ge_cases x (j * 2251799813685248)) as [|Hge]; [assumption|].
    exfalso.
    destruct (Z.lt_ge_cases (x * 60) 576460752303423488) as [Hsmall | Hbig].
    + destruct (Hnear ltac:(lia)) as [Hclose Hfit].
      destruct (Z.eq_dec x (j * 2251799813685248)) as [-> | Hne].
      * rewrite Hfit in H; [Z.div_mod_to_equations; lia|].
        replace (j * 2251799813685248 * 60) with (j * 2111062325329920 * 64) by lia.
        apply Z.mod_mul. lia.
      * Z.div_mod_to_equations; lia.
    + specialize (Hlarge Hbig). Z.div_mod_to_equations; lia.
  - intro H. apply Z.div_lt_upper_bound; [lia|].
    destruct (Hnear ltac:(lia)) as [Hclose _]. lia.
Qed.

(** A draw below 1 scaled by 60 stays below 60: mock delays are 0..59. *)
Lemma floor_scaled_below_60 : forall m,
  (m < 2 ^ 53)%N -> floor_scaled m 60 < 60.
Proof.
  intros m Hm. apply (floor_scaled_60_quarter m 4); [lia|].
  change (4 * 2 ^ 51) with (Z.of_N (2 ^ 53)). lia.
Qed.

Lemma getMockTrafficData_returns : forall route rt,
  TrafficService.getMockTrafficData route rt
  = (Ok {| TrafficData.estimatedDelayMinutes := floor_scaled (random rt (draws rt)) 60;
           TrafficData.normalDurationMinutes := 120;
           TrafficData.currentDurationMinutes :=
             120 + floor_scaled (random rt (draws rt)) 60;
           TrafficData.trafficCondition :=
             TrafficService.trafficConditionFor
               (floor_scaled (random rt (draws rt)) 60);
           TrafficData.route := route |},
     after_draw rt).
Proof. reflexivity. Qed.

(** The real call is the mock and the mock never throws, so the [catch] of
    [getTrafficData] never runs. *)
Lemma getTrafficData_returns : forall route rt,
  TrafficService.getTrafficData route rt
  = TrafficService.getMockTrafficData route rt.
Proof. reflexivity. Qed.

Lemma fetchTrafficData_valid : forall route rt,
  TrafficService.validateRoute route = true ->
  Activities.fetchTrafficData route rt = TrafficService.getTrafficData route rt.
Proof.
  intros route rt H. unfold Activities.fetchTrafficData. rewrite H. reflexivity.
Qed.

Lemma fetchTrafficData_invalid : forall route rt,
  TrafficService.validateRoute route = false ->
  Activities.fetchTrafficData route rt
  = (Raise (ErrorObj "Invalid route: Origin and destination are required"), rt).
Proof.
  intros route rt H. unfold Activities.fetchTrafficData. rewrite H. reflexivity.
Qed.

(** C6: the traffic condition is a function of the delay alone, with the
    bands below 15 light, 15 to 29 moderate, 30 to 44 heavy, 45 and above
    severe; 14, 15, 29, 30, 44, 45 fall as these bands say; and the condition
    of a snapshot that the service builds is that function of its delay. *)
Theorem classification_bands :
  (forall d, 0 <= d ->
     (d < 15 -> TrafficService.trafficConditionFor d = light)
     /\ (15 <= d <= 29 -> TrafficService.trafficConditionFor d = moderate)
     /\ (30 <= d <= 44 -> TrafficService.trafficConditionFor d = heavy)
     /\ (45 <= d -> TrafficService.trafficConditionFor d = severe))
  /\ map TrafficService.trafficConditionFor [14; 15; 29; 30; 44; 45]
     = [light; moderate; moderate; heavy; heavy; severe]
  /\ (forall route rt trafficData,
        fst (TrafficService.getMockTrafficData route rt) = Ok trafficData ->
        TrafficData.trafficCondition trafficData
        = TrafficService.trafficConditionFor
            (TrafficData.estimatedDelayMinutes trafficData)).
Proof.
  split; [|split].
  - intros d _. unfold TrafficService.trafficConditionFor.
    repeat split; intro H;
      destruct (d <? 15) eqn:H15; destruct (d <? 30) eqn:H30;
      destruct (d <? 45) eqn:H45; try reflexivity;
      try apply Z.ltb_lt in H15; try apply Z.ltb_ge in H15;
      try apply Z.ltb_lt in H30; try apply Z.ltb_ge in H30;
      try apply Z.ltb_lt in H45; try apply Z.ltb_ge in H45; lia.
  - reflexivity.
  - intros route rt trafficData. rewrite getMockTrafficData_returns.
    cbn [fst]. intro H. injection H as <-. reflexivity.
Qed.

Lemma classification_bands_witness :
  TrafficService.trafficConditionFor 44 = heavy.
Proof.
  destruct (proj1 classification_bands 44 ltac:(lia)) as [_ [_ [Hheavy _]]].
  apply Hheavy. lia.
Defined.

(** When every attempt fails with [e] and none is classified, the loop
    makes all the attempts that are left, waits between them and ends with
    [e]. *)
Lemma retryLoop_exhausts :
  forall A policy (attempts : nat -> RetryPolicy.attempt A) e,
    (forall n, attempts n = RetryPolicy.Failed e false) ->
    forall fuel n interval,
      (n + fuel = S (RetryPolicy.maximumAttempts policy))%nat ->
      (1 <= fuel)%nat ->
      snd (RetryPolicy.retryLoop policy attempts fuel n interval) = Some (Raise e)
      /\ List.length (fst (RetryPolicy.retryLoop policy attempts fuel n interval))
         = (fuel - 1)%nat.
Proof.
  intros A policy attempts e Hfail.
  induction fuel as [|fuel IH]; intros n interval Hsum Hfuel; [lia|].
  cbn [RetryPolicy.retryLoop]. rewrite Hfail. cbn [orb].
  destruct (n =? RetryPolicy.maximumAttempts policy)%nat eqn:Hlast.
  - apply Nat.eqb_eq in Hlast. split; [reflexivity|].
    cbn [fst List.length]. lia.
  - apply Nat.eqb_neq in Hlast. cbn [fst snd List.length].
    destruct (IH (S n) (interval * RetryPolicy.backoffCoefficient policy))
      as [Hend Hlen]; [lia | lia |].
    split; [exact Hend|]. rewrite Hlen. lia.
Qed.

(** C8: the fetch activity has one failure, the invalid-route error.  For
    a route with a non-blank origin and a non-blank destination it ends
    exactly as [getTrafficData] ends (it rethrows whatever the service
    throws), and the service always has a snapshot: no failure for missing
    data arises.  For a route whose origin or destination is empty or white
    space only it throws the invalid-route error and returns no data; the
    step does not classify that error as terminal, so under the retry engine
    every attempt up to [maximumAttempts] is made before the step ends with
    it, with waits of 1 s and 2 s under the configured policy. *)
Theorem fetch_raises_exactly_on_invalid_route : forall route rt,
  (blank (DeliveryRoute.origin route) = false ->
   blank (DeliveryRoute.destination route) = false ->
   fst (Activities.fetchTrafficData route rt)
   = fst (TrafficService.getTrafficData route rt)
   /\ exists trafficData,
        fst (Activities.fetchTrafficData route rt) = Ok trafficData)
  /\ (blank (DeliveryRoute.origin route) = true
      \/ blank (DeliveryRoute.destination route) = true ->
      Activities.fetchTrafficData route rt
      = (Raise (ErrorObj "Invalid route: Origin and destination are required"), rt))
  /\ (forall e,
        fst (Activities.fetchTrafficData route rt) = Raise e ->
        e = ErrorObj "Invalid route: Origin and destination are required"
        /\ (blank (DeliveryRoute.origin route) = true
            \/ blank (DeliveryRoute.destination route) = true))
  /\ (forall policy rts,
        blank (DeliveryRoute.origin route) = true
        \/ blank (DeliveryRoute.destination route) = true ->
        (1 <= RetryPolicy.maximumAttempts policy)%nat ->
        snd (RetryPolicy.executeStep policy (RetryPolicy.fetch_attempts route rts))
        = Some (Raise (ErrorObj "Invalid route: Origin and destination are required"))
        /\ List.length
             (fst (RetryPolicy.executeStep policy
                     (RetryPolicy.fetch_attempts route rts)))
           = (RetryPolicy.maximumAttempts policy - 1)%nat)
  /\ (forall rts,
        blank (DeliveryRoute.origin route) = true
        \/ blank (DeliveryRoute.destination route) = true ->
        RetryPolicy.executeStep RetryPolicy.configured
          (RetryPolicy.fetch_attempts route rts)
        = ([1000; 2000],
           Some (Raise (ErrorObj "Invalid route: Origin and destination are required")))).
Proof.
  intros route rt.
  assert (Hinvalid : blank (DeliveryRoute.origin route) = true
                     \/ blank (DeliveryRoute.destination route) = true ->
                     TrafficService.validateRoute route = false).
  { intro Hblank. rewrite validateRoute_blank.
    destruct Hblank as [-> | ->]; cbn [negb andb];
      [reflexivity | apply andb_false_r]. }
  assert (Hattempts : forall rts,
             blank (DeliveryRoute.origin route) = true
             \/ blank (DeliveryRoute.destination route) = true ->
             forall n, RetryPolicy.fetch_attempts route rts n
                       = RetryPolicy.Failed
                           (ErrorObj "Invalid route: Origin and destination are required")
                           false).
  { intros rts Hblank n. unfold RetryPolicy.fetch_attempts.
    rewrite (fetchTrafficData_invalid route (rts n) (Hinvalid Hblank)).
    reflexivity. }
  split; [|split; [|split; [|split]]].
  - intros Ho Hd.
    assert (TrafficService.validateRoute route = true) as Hvalid
      by (rewrite validateRoute_blank, Ho, Hd; reflexivity).
    rewrite (fetchTrafficData_valid route rt Hvalid). split; [reflexivity|].
    rewrite getTrafficData_returns, getMockTrafficData_returns.
    eexists. reflexivity.
  - intros Hblank. apply fetchTrafficData_invalid, Hinvalid, Hblank.
  - intros e He.
    destruct (TrafficService.validateRoute route) eqn:Hvalid.
    + rewrite (fetchTrafficData_valid route rt Hvalid),
        getTrafficData_returns, getMockTrafficData_returns in He.
      discriminate He.
    + rewrite (fetchTrafficData_invalid route rt Hvalid) in He.
      cbn [fst] in He. injection He as <-. split; [reflexivity|].
      rewrite validateRoute_blank in Hvalid.
      destruct (blank (DeliveryRoute.origin route)); [left; reflexivity|].
      destruct (blank (DeliveryRoute.destination route)); [right; reflexivity|].
      discriminate Hvalid.
  - intros policy rts Hblank Hmax. unfold RetryPolicy.executeStep.
    destruct (retryLoop_exhausts _ policy _ _ (Hattempts rts Hblank)
                (RetryPolicy.maximumAttempts policy) 1%nat
                (RetryPolicy.initialInterval policy)) as [Hend Hlen]; [lia | lia |].
    split; assumption.
  - intros rts Hblank.
    unfold RetryPolicy.executeStep, RetryPolicy.configured.
    cbn [RetryPolicy.retryLoop RetryPolicy.maximumAttempts
         RetryPolicy.initialInterval RetryPolicy.maximumInterval
         RetryPolicy.backoffCoefficient].
    rewrite !(Hattempts rts Hblank). reflexivity.
Qed.

Lemma fetch_raises_exactly_on_invalid_route_witness :
  (exists trafficData,
     fst (Activities.fetchTrafficData Scenario.route (Scenario.runtime 0 0))
     = Ok trafficData)
  /\ Activities.fetchTrafficData Example.no_origin (Scenario.runtime 0 0)
     = (Raise (ErrorObj "Invalid route: Origin and destination are required"),
        Scenario.runtime 0 0)
  /\ List.length
       (fst (RetryPolicy.executeStep RetryPolicy.configured
               (RetryPolicy.fetch_attempts Example.no_origin (Example.runtimes 0))))
     = 2%nat.
Proof.
  split; [|split].
  - apply (proj1 (fetch_raises_exactly_on_invalid_route
                    Scenario.route (Scenario.runtime 0 0))); reflexivity.
  - apply (proj1 (proj2 (fetch_raises_exactly_on_invalid_route
                           Example.no_origin (Scenario.runtime 0 0)))).
    left. reflexivity.
  - apply (proj1 (proj2 (proj2 (proj2 (fetch_raises_exactly_on_invalid_route
                                         Example.no_origin (Scenario.runtime 0 0)))))
             RetryPolicy.configured (Example.runtimes 0)).
    + left. reflexivity.
    + cbn. lia.
Defined.

(** The invalid-route error is retried: under the configured policy the
    fetch step for a route without origin waits twice and makes three
    attempts before it fails for good. *)
Lemma invalid_route_is_retried :
  RetryPolicy.executeStep RetryPolicy.configured
    (RetryPolicy.fetch_attempts Example.no_origin (Example.runtimes 0))
  = ([1000; 2000],
     Some (Raise (ErrorObj "Invalid route: Origin and destination are required"))).
Proof. reflexivity. Qed.

(** C9: a snapshot that the fetch activity returns has a delay of at least
    0, a normal and a current duration above 0, a current duration no less
    than the normal one when the delay is above 0, and a condition that is
    light for a delay below 15, moderate from 15 to 29, heavy from 30 to 44
    and severe from 45 on. *)
Theorem snapshot_invariants : forall route rt trafficData,
  fst (Activities.fetchTrafficData route rt) = Ok trafficData ->
  0 <= TrafficData.estimatedDelayMinutes trafficData
  /\ 0 < TrafficData.normalDurationMinutes trafficData
  /\ 0 < TrafficData.currentDurationMinutes trafficData
  /\ (0 < TrafficData.estimatedDelayMinutes trafficData ->
      TrafficData.normalDurationMinutes trafficData
      <= TrafficData.currentDurationMinutes trafficData)
  /\ (TrafficData.estimatedDelayMinutes trafficData < 15 ->
      TrafficData.trafficCondition trafficData = light)
  /\ (15 <= TrafficData.estimatedDelayMinutes trafficData <= 29 ->
      TrafficData.trafficCondition trafficData = moderate)
  /\ (30 <= TrafficData.estimatedDelayMinutes trafficData <= 44 ->
      TrafficData.trafficCondition trafficData = heavy)
  /\ (45 <= TrafficData.estimatedDelayMinutes trafficData ->
      TrafficData.trafficCondition trafficData = severe).
Proof.
  intros route rt trafficData.
  destruct (TrafficService.validateRoute route) eqn:Hvalid.
  - rewrite (fetchTrafficData_valid route rt Hvalid),
      getTrafficData_returns, getMockTrafficData_returns.
    cbn [fst]. intro H. apply Ok_injective in H. subst trafficData.
    cbn [TrafficData.estimatedDelayMinutes TrafficData.normalDurationMinutes
         TrafficData.currentDurationMinutes TrafficData.trafficCondition].
    pose proof (floor_scaled_nonneg (random rt (draws rt)) 60 ltac:(lia)) as Hd.
    generalize dependent (floor_scaled (random rt (draws rt)) 60). intros d Hd.
    unfold TrafficService.trafficConditionFor.
    destruct (d <? 15) eqn:H15;
      [apply Z.ltb_lt in H15 | apply Z.ltb_ge in H15];
    destruct (d <? 30) eqn:H30;
      [apply Z.ltb_lt in H30 | apply Z.ltb_ge in H30
       | apply Z.ltb_lt in H30 | apply Z.ltb_ge in H30];
    destruct (d <? 45) eqn:H45;
      try apply Z.ltb_lt in H45; try apply Z.ltb_ge in H45;
    repeat split; intros; try reflexivity; lia.
  - rewrite (fetchTrafficData_invalid route rt Hvalid). cbn [fst]. discriminate.
Qed.

Lemma snapshot_invariants_witness :
  0 <= TrafficData.estimatedDelayMinutes (Scenario.snapshot 45)
  /\ 0 < TrafficData.normalDurationMinutes (Scenario.snapshot 45)
  /\ 0 < TrafficData.currentDurationMinutes (Scenario.snapshot 45)
  /\ (0 < TrafficData.estimatedDelayMinutes (Scenario.snapshot 45) ->
      TrafficData.normalDurationMinutes (Scenario.snapshot 45)
      <= TrafficData.currentDurationMinutes (Scenario.snapshot 45))
  /\ (TrafficData.estimatedDelayMinutes (Scenario.snapshot 45) < 15 ->
      TrafficData.trafficCondition (Scenario.snapshot 45) = light)
  /\ (15 <= TrafficData.estimatedDelayMinutes (Scenario.snapshot 45) <= 29 ->
      TrafficData.trafficCondition (Scenario.snapshot 45) = moderate)
  /\ (30 <= TrafficData.estimatedDelayMinutes (Scenario.snapshot 45) <= 44 ->
      TrafficData.trafficCondition (Scenario.snapshot 45) = heavy)
  /\ (45 <= TrafficData.estimatedDelayMinutes (Scenario.snapshot 45) ->
      TrafficData.trafficCondition (Scenario.snapshot 45) = severe).
Proof.
  apply (snapshot_invariants Scenario.route (Scenario.runtime 0 (2 ^ 52 + 2 ^ 51))).
  reflexivity.
Defined.

(* ================================================================= *)
(** ** Retries *)

Section RetryLoop.

Context {A : Type} (policy : RetryPolicy.t) (attempts : nat -> RetryPolicy.attempt A).

(** The [i]-th delay that the loop waits, counted from 0, is the interval it
    was entered with, grown [i] times and capped. *)
Lemma retryLoop_delay : forall fuel n interval i delay,
  nth_error (fst (RetryPolicy.retryLoop policy attempts fuel n interval)) i = Some delay ->
  delay = Z.min (interval * RetryPolicy.backoffCoefficient policy ^ Z.of_nat i)
                (RetryPolicy.maximumInterval policy).
Proof.
  induction fuel as [|fuel IH]; intros n interval i delay; cbn [RetryPolicy.retryLoop].
  - destruct i; discriminate.
  - destruct (attempts n) as [a | e classified].
    + destruct i; discriminate.
    + destruct (classified || (n =? RetryPolicy.maximumAttempts policy)%nat).
      * destruct i; discriminate.
      * cbn [fst]. destruct i as [|i]; cbn [nth_error].
        -- intro H. injection H as <-. rewrite Z.pow_0_r, Z.mul_1_r. reflexivity.
        -- intro H. apply IH in H. rewrite H.
           rewrite Nat2Z.inj_succ, Z.pow_succ_r by lia.
           f_equal. ring.
Qed.

(** With [fuel] attempts left up to [maximumAttempts], the loop ends by
    itself. *)
Lemma retryLoop_ends : forall fuel n interval,
  (n + fuel = S (RetryPolicy.maximumAttempts policy))%nat ->
  (1 <= fuel)%nat ->
  snd (RetryPolicy.retryLoop policy attempts fuel n interval) <> None.
Proof.
  induction fuel as [|fuel IH]; intros n interval Hsum Hfuel; [lia|].
  cbn [RetryPolicy.retryLoop].
  destruct (attempts n) as [a | e classified]; [discriminate|].
  destruct classified; cbn [orb]; [discriminate|].
  destruct (n =? RetryPolicy.maximumAttempts policy)%nat eqn:Hlast; [discriminate|].
  apply Nat.eqb_neq in Hlast. cbn [snd]. apply IH; lia.
Qed.

End RetryLoop.

(** C7: under the retry engine, the delay waited after attempt [n] fails is
    [min (initialInterval * backoffCoefficient ^ (n - 1)) maximumInterval],
    the delay that section 4.2 computes, and a step always ends; for the
    policy that the workflow configures (1 s, factor 2, cap 10 s, 3 attempts)
    the delays before the 2nd and the 3rd attempt are 1 s and 2 s, and a
    failure of attempt 3 ends the step with that failure. *)
Theorem retry_backoff :
  (forall A policy (attempts : nat -> RetryPolicy.attempt A) n delay,
     (1 <= n)%nat ->
     nth_error (fst (RetryPolicy.executeStep policy attempts)) (n - 1) = Some delay ->
     delay = RetryPolicy.computedDelay policy n
     /\ delay = Z.min (RetryPolicy.initialInterval policy
                       * RetryPolicy.backoffCoefficient policy ^ (Z.of_nat n - 1))
                      (RetryPolicy.maximumInterval policy))
  /\ (forall A policy (attempts : nat -> RetryPolicy.attempt A),
        (1 <= RetryPolicy.maximumAttempts policy)%nat ->
        snd (RetryPolicy.executeStep policy attempts) <> None)
  /\ RetryPolicy.computedDelay RetryPolicy.configured 1 = 1000
  /\ RetryPolicy.computedDelay RetryPolicy.configured 2 = 2000
  /\ (forall A (attempts : nat -> RetryPolicy.attempt A) e1 e2 e3 c3,
        attempts 1%nat = RetryPolicy.Failed e1 false ->
        attempts 2%nat = RetryPolicy.Failed e2 false ->
        attempts 3%nat = RetryPolicy.Failed e3 c3 ->
        RetryPolicy.executeStep RetryPolicy.configured attempts
        = ([1000; 2000], Some (Raise e3))).
Proof.
  split; [|split; [|split; [|split]]].
  - intros A policy attempts n delay Hn Hnth.
    apply retryLoop_delay in Hnth. unfold RetryPolicy.computedDelay.
    replace (Z.of_nat (n - 1)) with (Z.of_nat n - 1) in Hnth by lia.
    split; exact Hnth.
  - intros A policy attempts Hmax. unfold RetryPolicy.executeStep.
    apply retryLoop_ends; lia.
  - reflexivity.
  - reflexivity.
  - intros A attempts e1 e2 e3 c3 H1 H2 H3.
    unfold RetryPolicy.executeStep, RetryPolicy.configured.
    cbn [RetryPolicy.retryLoop RetryPolicy.maximumAttempts
         RetryPolicy.initialInterval RetryPolicy.maximumInterval
         RetryPolicy.backoffCoefficient].
    rewrite H1. cbn [orb Nat.eqb fst snd].
    rewrite H2. cbn [orb Nat.eqb fst snd].
    rewrite H3. rewrite orb_true_r. reflexivity.
Qed.

Lemma retry_backoff_witness :
  RetryPolicy.executeStep RetryPolicy.configured
    (Scenario.always_failing (ErrorObj "Activity task timed out"))
  = ([1000; 2000], Some (Raise (ErrorObj "Activity task timed out"))).
Proof.
  apply (proj2 (proj2 (proj2 (proj2 retry_backoff))) unit
           (Scenario.always_failing (ErrorObj "Activity task timed out"))
           (ErrorObj "Activity task timed out")
           (ErrorObj "Activity task timed out")
           (ErrorObj "Activity task timed out") false);
    reflexivity.
Defined.

(* ================================================================= *)
(** ** Histories and replay *)





Section Replay.

Context {W : Type} (h : handler W).


End Replay.


(* ================================================================= *)
(** ** Walking the paths of the workflow *)

Ltac unfold_workflow_in E :=
  unfold execute, Workflow.freightDelayNotificationWorkflow,
    Workflow.fetchTrafficData, Workflow.generateAIMessage,
    Workflow.sendDelayNotification, Workflow.sendSMSNotification,
    Workflow.shouldSendNotification, Workflow.createNotificationRequest,
    Workflow.logWorkflowStep, Workflow.createAIMessageRequest, Wf.await in E.

Ltac reduce_run_in E :=
  cbn [run Wf.bind Wf.try_catch history terminal record_step fst snd
       map_outcome inject negb] in E.

(** One awaited step of the execution that [E] describes: it ended as
    [known] proves, or else in either way. *)
Ltac await_step h known E :=
  match type of E with
  | context [h ?c ?w] =>
      let o := fresh "o" in let w' := fresh "w" in let Ho := fresh "Ho" in
      first
        [ eassert (Ho : fst (h c w) = _) by known;
          destruct (h c w) as [o w']; cbn [fst] in Ho; subst o
        | destruct (h c w) as [[?x | ?e] w'] eqn:?Hstep ];
      reduce_run_in E
  end.

(** A conditional of the body: both ways. *)
Ltac branch_step E :=
  match type of E with
  | context [if negb ?b then _ else _] =>
      let B := fresh "B" in destruct b eqn:B; reduce_run_in E
  | context [if ?b then _ else _] =>
      let B := fresh "B" in destruct b eqn:B; reduce_run_in E
  end.

(** Every path of the workflow under [h]: on each, the history is a literal
    list and the result a literal value. *)
Ltac walk h known :=
  match goal with
  | |- context [execute h ?input ?w] =>
      let ex := fresh "ex" in let E := fresh "Eex" in
      remember (execute h input w) as ex eqn:E;
      unfold_workflow_in E; reduce_run_in E;
      repeat first [ await_step h known E | branch_step E ];
      subst ex;
      cbn [history terminal record_step fst snd] in *
  end.

Ltac split_membership H :=
  cbn [In steps map step] in H;
  repeat match type of H with
         | _ \/ _ => destruct H as [H | H]
         end.

(** [In x l] for a literal list [l] that holds [x]. *)
Ltac membership :=
  cbn [In steps map step];
  repeat first [ left; reflexivity | right ].


(* ================================================================= *)
(** ** Determinism *)



(* ================================================================= *)
(** ** The threshold decides the branch *)




(* ================================================================= *)
(** ** The fallback channel *)







(* ================================================================= *)
(** ** Failures of steps and the [catch] block *)

(** C5: the log step ["Workflow Started"] is awaited before the [try]: when
    it fails for good, the history holds that one failed step and the
    execution ends with the failure itself, not with a result. *)
Lemma initial_log_failure_is_bare_fault :
  history (execute (Scenario.scripted (Scenario.log_outage "Workflow Started"))
                   (Scenario.input 30) tt)
  = [ {| step :=
           LogWorkflowStep "Workflow Started"
             (Some [("route", LRoute Scenario.route);
                    ("customerEmail", LStr "customer@example.com");
                    ("threshold", LNum 30)]);
         result := Raise (ErrorObj "Activity task failed") |} ]
  /\ terminal (execute (Scenario.scripted (Scenario.log_outage "Workflow Started"))
                       (Scenario.input 30) tt)
     = Raise (ErrorObj "Activity task failed").
Proof. split; reflexivity. Qed.

(** X21: when the log step before the [try] comes back and the log step of
    the [catch] block comes back, the workflow returns a result, and if any
    step failed for good with [e] that result is [delayDetected: false],
    [delayMinutes: 0], [notificationSent: false] and the message of [e] as
    [error]. *)
Theorem step_failures_in_try_become_results :
  forall W (h : handler W) (w : W) input,
    fst (h (LogWorkflowStep "Workflow Started"
              (Some [("route", LRoute (DelayNotificationInput.route input));
                     ("customerEmail",
                      LStr (DelayNotificationInput.customerEmail input));
                     ("threshold",
                      LNum (DelayNotificationInput.delayThresholdMinutes input))]))
           w) = Ok tt ->
    (forall data w', fst (h (LogWorkflowStep "Workflow Error" data) w') = Ok tt) ->
    exists r,
      terminal (execute h input w) = Ok r
      /\ (forall c e, rejected_with c e (history (execute h input w)) ->
                      r = erroredResult e).
Proof.
  intros W h w input Hstart Herror. unfold rejected_with.
  walk h ltac:(first [apply Hstart | apply Herror]).
  all: eexists; split; [reflexivity|].
  all: intros c e' Hin; split_membership Hin; try discriminate Hin;
       try contradiction; injection Hin as _ <-; reflexivity.
Qed.

Lemma step_failures_in_try_become_results_witness :
  rejected_with (LogWorkflowStep "Step 4: Sending Notification" None)
                (ErrorObj "Activity task failed")
                (history (execute
                            (Scenario.scripted
                               (Scenario.log_outage "Step 4: Sending Notification"))
                            (Scenario.input 30) tt))
  /\ terminal (execute (Scenario.scripted
                          (Scenario.log_outage "Step 4: Sending Notification"))
                       (Scenario.input 30) tt)
     = Ok (erroredResult (ErrorObj "Activity task failed")).
Proof.
  assert (Hfailed :
    rejected_with (LogWorkflowStep "Step 4: Sending Notification" None)
                  (ErrorObj "Activity task failed")
                  (history (execute
                              (Scenario.scripted
                                 (Scenario.log_outage "Step 4: Sending Notification"))
                              (Scenario.input 30) tt)))
    by (unfold rejected_with; vm_compute; membership).
  split; [exact Hfailed|].
  destruct (step_failures_in_try_become_results unit
              (Scenario.scripted (Scenario.log_outage "Step 4: Sending Notification"))
              tt (Scenario.input 30))
    as [r [Hterminal Hshape]].
  - reflexivity.
  - intros data w'. reflexivity.
  - rewrite Hterminal, (Hshape _ _ Hfailed). reflexivity.
Defined.

(* ================================================================= *)
(** ** The simulated channels *)

Lemma service_sendDelayNotification_returns : forall request rt,
  NotificationService.sendDelayNotification request rt
  = (Ok {| NotificationResponse.success := true;
           NotificationResponse.messageId :=
             Some ("msg_" ++ Number_toString (now rt) ++ "_"
                   ++ random_suffix (random rt (draws rt)));
           NotificationResponse.error := None |},
     after_draw rt).
Proof. reflexivity. Qed.

Lemma service_sendSMSNotification_returns : forall request rt,
  NotificationService.sendSMSNotification request rt
  = (Ok {| NotificationResponse.success := true;
           NotificationResponse.messageId :=
             Some ("sms_" ++ Number_toString (now rt) ++ "_"
                   ++ random_suffix (random rt (draws rt)));
           NotificationResponse.error := None |},
     after_draw rt).
Proof. reflexivity. Qed.

(** What the activity returns, it returns with [success: true]; a request
    that fails validation makes it throw. *)
Lemma activity_sendDelayNotification_success : forall request rt response,
  fst (Activities.sendDelayNotification request rt) = Ok response ->
  NotificationResponse.success response = true.
Proof.
  intros request rt response. unfold Activities.sendDelayNotification.
  destruct (NotificationService.validateRequest request); cbn [negb].
  - unfold try_catch, bind. rewrite service_sendDelayNotification_returns.
    cbn [ret fst]. intro H. apply Ok_injective in H. subst response. reflexivity.
  - cbn [throw fst]. discriminate.
Qed.

(** The worker of [worker.ts] is one of the handlers that the last part of
    the next theorem speaks of. *)
Lemma worker_primary_send_runs_activity : forall aiService,
  primary_send_runs_activity (worker aiService).
Proof. intros aiService request w response H. exists w. exact H. Qed.

(** C10: [sendDelayNotification] and [sendSMSNotification] of the
    notification service return [success: true] with a [messageId], for
    every request; and in an execution whose primary send step returns what
    the activity returns, no step of the fallback branch is called and no
    result has [delayDetected: true] with [notificationSent: false]. *)
Theorem simulated_sends_never_fail :
  (forall request rt,
     exists id,
       fst (NotificationService.sendDelayNotification request rt)
       = Ok {| NotificationResponse.success := true;
               NotificationResponse.messageId := Some id;
               NotificationResponse.error := None |})
  /\ (forall request rt,
        exists id,
          fst (NotificationService.sendSMSNotification request rt)
          = Ok {| NotificationResponse.success := true;
                  NotificationResponse.messageId := Some id;
                  NotificationResponse.error := None |})
  /\ (forall W (h : handler W) (w : W) input,
        primary_send_runs_activity h ->
        (forall c, invoked c (history (execute h input w)) ->
                   is_fallback_step c = false)
        /\ (forall r, terminal (execute h input w) = Ok r ->
                      WorkflowResult.delayDetected r = true ->
                      WorkflowResult.notificationSent r = true)).
Proof.
  split; [|split].
  - intros. rewrite service_sendDelayNotification_returns. eexists. reflexivity.
  - intros. rewrite service_sendSMSNotification_returns. eexists. reflexivity.
  - intros W h w input Hprimary. unfold invoked.
    walk h ltac:(fail).
    all: try match goal with
         | E : ?hh (SendDelayNotification ?req) ?w0 = (Ok ?x, _),
           B : NotificationResponse.success ?x = false |- _ =>
             exfalso;
             let H := fresh in
             assert (H : fst (hh (SendDelayNotification req) w0) = Ok x)
               by (rewrite E; reflexivity);
             destruct (Hprimary _ _ _ H) as [rt Hrt];
             apply activity_sendDelayNotification_success in Hrt;
             congruence
         end.
    all: split;
      [ intros c Hc; split_membership Hc; try contradiction; subst c; reflexivity
      | intros r Hr;
        first [ discriminate Hr | injection Hr as <-; cbn; congruence ] ].
Qed.

(** The first end-to-end example of the specification, on the worker: 45
    minutes against a threshold of 30. *)
Lemma simulated_sends_never_fail_witness :
  (forall c,
     invoked c (history (execute (worker Scenario.cannedAI) (Scenario.input 30)
                                 (Scenario.runtime 1700000000000 (2 ^ 52 + 2 ^ 51)))) ->
     is_fallback_step c = false)
  /\ (forall r,
        terminal (execute (worker Scenario.cannedAI) (Scenario.input 30)
                          (Scenario.runtime 1700000000000 (2 ^ 52 + 2 ^ 51))) = Ok r ->
        WorkflowResult.delayDetected r = true ->
        WorkflowResult.notificationSent r = true).
Proof.
  apply (proj2 (proj2 simulated_sends_never_fail) Runtime
           (worker Scenario.cannedAI)
           (Scenario.runtime 1700000000000 (2 ^ 52 + 2 ^ 51))
           (Scenario.input 30)).
  intros request w response H. exists w. exact H.
Defined.

(* ################################################################# *)
(** * More properties of the code *)

(* ================================================================= *)
(** ** The paths of the workflow *)

(** X1: in an execution whose log steps come back, if the primary send step
    returned [success: true], the workflow returns [delayDetected: true],
    the delay of the snapshot, [notificationSent: true] and the message that
    names the customer, and no step of the fallback branch is called. *)
Theorem primary_success_completes :
  forall W (h : handler W) (w : W) input trafficData request response,
    logging_succeeds h ->
    resolved_to (FetchTrafficData (DelayNotificationInput.route input))
                (VTrafficData trafficData) (history (execute h input w)) ->
    resolved_to (SendDelayNotification request) (VNotificationResponse response)
                (history (execute h input w)) ->
    NotificationResponse.success response = true ->
    terminal (execute h input w)
    = Ok (emailedResult input (TrafficData.estimatedDelayMinutes trafficData))
    /\ (forall c, invoked c (history (execute h input w)) ->
                  is_fallback_step c = false).
Proof.
  intros W h w input td request response Hlog Hfetch Hprimary Hsuccess.
  unfold resolved_to, invoked in *.
  walk h ltac:(apply Hlog).
  all: split_membership Hprimary; try discriminate Hprimary; try contradiction.
  all: injection Hprimary as -> ->; try congruence.
  all: split_membership Hfetch; try discriminate Hfetch; try contradiction.
  all: injection Hfetch as ->.
  all: split; [reflexivity|].
  all: intros c Hc; split_membership Hc; try contradiction; subst c; reflexivity.
Qed.

(** The first end-to-end example of the specification: 45 minutes against a
    threshold of 30. *)
Lemma primary_success_completes_witness :
  terminal (execute (Scenario.scripted
                       (Scenario.sends (Scenario.delivered "msg_1")
                                       (Scenario.delivered "sms_1")))
                    (Scenario.input 30) tt)
  = Ok (emailedResult (Scenario.input 30) 45).
Proof.
  apply (primary_success_completes unit
           (Scenario.scripted
              (Scenario.sends (Scenario.delivered "msg_1")
                              (Scenario.delivered "sms_1")))
           tt (Scenario.input 30) (Scenario.snapshot 45)
           Example.request (Scenario.delivered "msg_1")).
  - intros stepName data w. reflexivity.
  - unfold resolved_to. vm_compute. membership.
  - unfold resolved_to. vm_compute. membership.
  - reflexivity.
Defined.

(** X2: whatever the steps do, the SMS step is called only for a request
    that the primary send step was called with earlier in the history and
    answered with [success: false]. *)
Theorem sms_only_after_email_failure :
  forall W (h : handler W) (w : W) input request,
    invoked (SendSMSNotification request) (history (execute h input w)) ->
    exists response,
      precedes {| step := SendDelayNotification request;
                  result := Ok (VNotificationResponse response) |}
               (SendSMSNotification request)
               (history (execute h input w))
      /\ NotificationResponse.success response = false.
Proof.
  intros W h w input request Hsms.
  unfold invoked in *.
  walk h ltac:(fail).
  all: split_membership Hsms; try discriminate Hsms; try contradiction.
  all: injection Hsms as ->.
  all: eexists; split;
       [ cbn [precedes];
         repeat first [ left; split; [reflexivity | solve [membership]] | right ]
       | assumption ].
Qed.

Lemma sms_only_after_email_failure_witness :
  exists response,
    precedes {| step := SendDelayNotification Example.request;
                result := Ok (VNotificationResponse response) |}
             (SendSMSNotification Example.request)
             (history (execute (Scenario.scripted
                                  (Scenario.sends (Scenario.rejected "mailbox full")
                                                  (Scenario.delivered "sms_1")))
                               (Scenario.input 30) tt))
    /\ NotificationResponse.success response = false.
Proof.
  apply (sms_only_after_email_failure unit
           (Scenario.scripted
              (Scenario.sends (Scenario.rejected "mailbox full")
                              (Scenario.delivered "sms_1")))
           tt (Scenario.input 30) Example.request).
  unfold invoked. vm_compute. membership.
Defined.

(** X3: whatever the steps do, a result with [notificationSent: true] has
    [delayDetected: true] and no [error], and one of the two send steps
    returned [success: true] in that execution. *)
Theorem sent_flag_needs_channel_success :
  forall W (h : handler W) (w : W) input r,
    terminal (execute h input w) = Ok r ->
    WorkflowResult.notificationSent r = true ->
    WorkflowResult.delayDetected r = true
    /\ WorkflowResult.error r = None
    /\ exists request response,
         (resolved_to (SendDelayNotification request) (VNotificationResponse response)
                      (history (execute h input w))
          \/ resolved_to (SendSMSNotification request) (VNotificationResponse response)
                         (history (execute h input w)))
         /\ NotificationResponse.success response = true.
Proof.
  intros W h w input r Hterminal Hsent.
  unfold resolved_to in *.
  walk h ltac:(fail).
  all: try discriminate Hterminal.
  all: apply Ok_injective in Hterminal; subst r; try discriminate Hsent.
  all: split; [reflexivity | split; [reflexivity|]].
  all: eexists; eexists;
    first [ solve [split; [left; membership | assumption]]
          | solve [split; [right; membership | assumption]] ].
Qed.

Lemma sent_flag_needs_channel_success_witness :
  exists request response,
    (resolved_to (SendDelayNotification request) (VNotificationResponse response)
                 (history (execute (Scenario.scripted
                                      (Scenario.sends (Scenario.rejected "mailbox full")
                                                      (Scenario.delivered "sms_1")))
                                   (Scenario.input 30) tt))
     \/ resolved_to (SendSMSNotification request) (VNotificationResponse response)
                    (history (execute (Scenario.scripted
                                         (Scenario.sends (Scenario.rejected "mailbox full")
                                                         (Scenario.delivered "sms_1")))
                                      (Scenario.input 30) tt)))
    /\ NotificationResponse.success response = true.
Proof.
  apply (sent_flag_needs_channel_success unit
           (Scenario.scripted
              (Scenario.sends (Scenario.rejected "mailbox full")
                              (Scenario.delivered "sms_1")))
           tt (Scenario.input 30)
           {| WorkflowResult.delayDetected := true;
              WorkflowResult.delayMinutes := 45;
              WorkflowResult.notificationSent := true;
              WorkflowResult.message :=
                Some "Delay notification sent via SMS after email failed. Customer notified of 45 minute delay.";
              WorkflowResult.error := None |}).
  - reflexivity.
  - reflexivity.
Defined.

(** X4: whatever the steps do, a result carries either a [message] and no
    [error], or an [error], no [message] and [notificationSent: false]; and
    a result with [delayDetected: true] reports the delay of the snapshot
    that the fetch step returned, for which the threshold step answered
    [true]. *)
Theorem result_shape :
  forall W (h : handler W) (w : W) input r,
    terminal (execute h input w) = Ok r ->
    ((exists text, WorkflowResult.message r = Some text)
     /\ WorkflowResult.error r = None
     \/
     (exists text, WorkflowResult.error r = Some text)
     /\ WorkflowResult.message r = None
     /\ WorkflowResult.notificationSent r = false)
    /\ (WorkflowResult.delayDetected r = true ->
        exists trafficData,
          resolved_to (FetchTrafficData (DelayNotificationInput.route input))
                      (VTrafficData trafficData) (history (execute h input w))
          /\ resolved_to
               (ShouldSendNotification
                  (TrafficData.estimatedDelayMinutes trafficData)
                  (DelayNotificationInput.delayThresholdMinutes input))
               (VBoolean true) (history (execute h input w))
          /\ WorkflowResult.delayMinutes r
             = TrafficData.estimatedDelayMinutes trafficData).
Proof.
  intros W h w input r Hterminal.
  unfold resolved_to in *.
  walk h ltac:(fail).
  all: try discriminate Hterminal.
  all: apply Ok_injective in Hterminal; subst r.
  all: split;
    [ first [ left; split; [eexists; reflexivity | reflexivity]
            | right; split; [eexists; reflexivity | split; reflexivity] ]
    | cbn [WorkflowResult.delayDetected erroredResult]; intro Hd;
      first [ discriminate Hd
            | eexists; split; [membership | split; [membership | reflexivity]] ] ].
Qed.

Lemma result_shape_witness :
  (exists text,
     WorkflowResult.error
       (erroredResult (ErrorObj "Activity task failed")) = Some text)
  /\ WorkflowResult.message (erroredResult (ErrorObj "Activity task failed")) = None
  /\ WorkflowResult.notificationSent
       (erroredResult (ErrorObj "Activity task failed")) = false.
Proof.
  destruct (result_shape unit
              (Scenario.scripted (Scenario.log_outage "Step 4: Sending Notification"))
              tt (Scenario.input 30)
              (erroredResult (ErrorObj "Activity task failed")) eq_refl)
    as [[[_ Hnone] | Hshape] _].
  - discriminate Hnone.
  - exact Hshape.
Defined.

(** X5: whatever the steps do, an execution calls the fetch step, the
    primary send step and the SMS step at most once each, and its history
    has at least 1 and at most 17 entries. *)
Theorem each_step_at_most_once :
  forall W (h : handler W) (w : W) input,
    (count_steps is_fetch (history (execute h input w)) <= 1)%nat
    /\ (count_steps is_primary_send (history (execute h input w)) <= 1)%nat
    /\ (count_steps is_sms_send (history (execute h input w)) <= 1)%nat
    /\ (1 <= List.length (history (execute h input w)) <= 17)%nat.
Proof.
  intros W h w input. unfold count_steps.
  walk h ltac:(fail).
  all: cbn; lia.
Qed.

(** X6: in an execution whose log steps come back, once the AI step has
    returned a response, with [success] true or false, the notification
    request is built from the [message] of that response, and the request
    that comes back is the one sent. *)
Theorem ai_failure_does_not_stop_notification :
  forall W (h : handler W) (w : W) input trafficData aiRequest aiResponse,
    logging_succeeds h ->
    resolved_to (FetchTrafficData (DelayNotificationInput.route input))
                (VTrafficData trafficData) (history (execute h input w)) ->
    resolved_to (GenerateAIMessage aiRequest) (VAIMessageResponse aiResponse)
                (history (execute h input w)) ->
    invoked (CreateNotificationRequest
               (DelayNotificationInput.customerEmail input)
               (AIMessageResponse.message aiResponse)
               (TrafficData.estimatedDelayMinutes trafficData))
            (history (execute h input w))
    /\ (forall request,
          resolved_to (CreateNotificationRequest
                         (DelayNotificationInput.customerEmail input)
                         (AIMessageResponse.message aiResponse)
                         (TrafficData.estimatedDelayMinutes trafficData))
                      (VNotificationRequest request)
                      (history (execute h input w)) ->
          invoked (SendDelayNotification request) (history (execute h input w))).
Proof.
  intros W h w input td aiRequest aiResponse Hlog Hfetch Hai.
  unfold resolved_to, invoked in *.
  walk h ltac:(apply Hlog).
  all: split_membership Hai; try discriminate Hai; try contradiction.
  all: injection Hai as -> ->.
  all: split_membership Hfetch; try discriminate Hfetch; try contradiction.
  all: injection Hfetch as ->.
  all: split; [membership|].
  all: intros request Hreq; split_membership Hreq; try discriminate Hreq;
       try contradiction; injection Hreq as <-; membership.
Qed.

Lemma ai_failure_does_not_stop_notification_witness :
  invoked (CreateNotificationRequest
             "customer@example.com" "Your delivery is running late." 45)
          (history (execute (Scenario.scripted Example.degraded)
                            (Scenario.input 30) tt)).
Proof.
  apply (ai_failure_does_not_stop_notification unit
           (Scenario.scripted Example.degraded) tt (Scenario.input 30)
           (Scenario.snapshot 45)
           (Activities.createAIMessageRequest (Scenario.snapshot 45))
           Example.templated).
  - intros stepName data w. reflexivity.
  - unfold resolved_to. vm_compute. membership.
  - unfold resolved_to. vm_compute. membership.
Defined.

(** X7: if the log step that follows a successful email fails for good and
    the log step of the [catch] block comes back, the email has gone out and
    yet the result is the one of the [catch] block, with
    [notificationSent: false] and [delayDetected: false]. *)
Theorem late_failure_hides_sent_notification :
  forall W (h : handler W) (w : W) input data e,
    (forall data' w', fst (h (LogWorkflowStep "Workflow Error" data') w') = Ok tt) ->
    rejected_with
      (LogWorkflowStep "Step 4 Complete: Notification Sent Successfully" data) e
      (history (execute h input w)) ->
    (exists request response,
       resolved_to (SendDelayNotification request) (VNotificationResponse response)
                   (history (execute h input w))
       /\ NotificationResponse.success response = true)
    /\ terminal (execute h input w) = Ok (erroredResult e)
    /\ WorkflowResult.notificationSent (erroredResult e) = false
    /\ WorkflowResult.delayDetected (erroredResult e) = false.
Proof.
  intros W h w input data e Herror Hlate.
  unfold resolved_to, rejected_with in *.
  walk h ltac:(apply Herror).
  all: split_membership Hlate; try discriminate Hlate; try contradiction.
  all: injection Hlate as _ ->.
  all: split; [eexists; eexists; split; [membership | assumption] | repeat split].
Qed.

Lemma late_failure_hides_sent_notification_witness :
  terminal (execute (Scenario.scripted
                       (Scenario.log_outage
                          "Step 4 Complete: Notification Sent Successfully"))
                    (Scenario.input 30) tt)
  = Ok (erroredResult (ErrorObj "Activity task failed")).
Proof.
  apply (late_failure_hides_sent_notification unit
           (Scenario.scripted
              (Scenario.log_outage
                 "Step 4 Complete: Notification Sent Successfully"))
           tt (Scenario.input 30)
           (Some [("messageId", LOpt (Some "msg_1"));
                  ("customer", LStr "customer@example.com")])
           (ErrorObj "Activity task failed")).
  - intros data' w'. reflexivity.
  - unfold rejected_with. vm_compute. membership.
Defined.

(* ================================================================= *)
(** ** The notification service and the send activities *)

Lemma includes_nonempty : forall s sub,
  sub <> EmptyString -> includes s sub = true -> truthy s = true.
Proof.
  intros s sub Hsub H. destruct s; [|reflexivity].
  destruct sub; [congruence | discriminate H].
Qed.

Lemma truthy_iff : forall s, truthy s = true <-> s <> EmptyString.
Proof. destruct s; cbn; split; congruence. Qed.

Lemma append_empty_r : forall s, s ++ "" = s.
Proof. induction s as [|c s IH]; cbn [append]; congruence. Qed.

Lemma includes_self : forall s, includes s s = true.
Proof. intro s. rewrite <- (append_empty_r s) at 1. apply includes_here. Qed.

Lemma createDelaySubject_not_empty : forall delayMinutes,
  NotificationService.createDelaySubject delayMinutes <> EmptyString.
Proof. intro d. unfold NotificationService.createDelaySubject. discriminate. Qed.

(** The check of the email address for truthiness adds nothing to the check
    for ["@"]. *)
Lemma validateRequest_true_iff :
  forall request,
    NotificationService.validateRequest request = true
    <-> includes (NotificationRequest.customerEmail request) "@" = true
        /\ NotificationRequest.subject request <> EmptyString
        /\ NotificationRequest.message request <> EmptyString
        /\ 0 < NotificationRequest.delayMinutes request.
Proof.
  intros [email subject message delay]. unfold NotificationService.validateRequest.
  cbn [NotificationRequest.customerEmail NotificationRequest.subject
       NotificationRequest.message NotificationRequest.delayMinutes].
  rewrite !andb_true_iff, !truthy_iff, Z.gtb_lt.
  split.
  - intros [[[[_ Hat] Hs] Hm] Hd]. auto.
  - intros [Hat [Hs [Hm Hd]]]. repeat split; auto.
    apply truthy_iff. apply (includes_nonempty email "@"); [discriminate | exact Hat].
Qed.

Lemma createNotificationRequest_validates_iff :
  forall customerEmail aiMessage delayMinutes,
    NotificationService.validateRequest
      (Activities.createNotificationRequest customerEmail aiMessage delayMinutes)
    = true
    <-> includes customerEmail "@" = true
        /\ aiMessage <> EmptyString
        /\ 0 < delayMinutes.
Proof.
  intros email msg d. rewrite validateRequest_true_iff.
  unfold Activities.createNotificationRequest.
  cbn [NotificationRequest.customerEmail NotificationRequest.subject
       NotificationRequest.message NotificationRequest.delayMinutes].
  split.
  - intros [Hat [_ [Hm Hd]]]. auto.
  - intros [Hat [Hm Hd]]. repeat split; auto.
    apply createDelaySubject_not_empty.
Qed.

(** X8: [validateRequest] accepts exactly the requests whose email address
    holds an ["@"], whose subject and message are not empty and whose delay
    is above 0; a request built by [createNotificationRequest] is accepted
    exactly when the address holds an ["@"], the message is not empty and the
    delay is above 0. *)
Theorem validateRequest_accepts_exactly :
  (forall request,
     NotificationService.validateRequest request = true
     <-> includes (NotificationRequest.customerEmail request) "@" = true
         /\ NotificationRequest.subject request <> EmptyString
         /\ NotificationRequest.message request <> EmptyString
         /\ 0 < NotificationRequest.delayMinutes request)
  /\ (forall customerEmail aiMessage delayMinutes,
        NotificationService.validateRequest
          (Activities.createNotificationRequest customerEmail aiMessage delayMinutes)
        = true
        <-> includes customerEmail "@" = true
            /\ aiMessage <> EmptyString
            /\ 0 < delayMinutes).
Proof.
  split.
  - exact validateRequest_true_iff.
  - exact createNotificationRequest_validates_iff.
Qed.

(** X9: for a delay of magnitude below [10^21], the subject of a delay
    notice holds the delay in decimal followed by [" Minutes"], and the word
    ["Delay"]. *)
Theorem createDelaySubject_mentions_delay :
  forall delayMinutes,
    - 10 ^ 21 < delayMinutes < 10 ^ 21 ->
    includes (NotificationService.createDelaySubject delayMinutes)
             (Number_toString delayMinutes ++ " Minutes") = true
    /\ includes (NotificationService.createDelaySubject delayMinutes) "Delay" = true.
Proof.
  intros d _. unfold NotificationService.createDelaySubject. split.
  - cbn [append]. repeat apply includes_skip. apply includes_self.
  - reflexivity.
Qed.

Lemma createDelaySubject_mentions_delay_witness :
  includes (NotificationService.createDelaySubject 45) "45 Minutes" = true
  /\ includes (NotificationService.createDelaySubject 45) "Delay" = true.
Proof.
  apply (createDelaySubject_mentions_delay 45). lia.
Defined.

Lemma activity_sendSMSNotification_returns : forall request rt,
  Activities.sendSMSNotification request rt
  = (Ok {| NotificationResponse.success := true;
           NotificationResponse.messageId :=
             Some ("sms_" ++ Number_toString (now rt) ++ "_"
                   ++ random_suffix (random rt (draws rt)));
           NotificationResponse.error := None |},
     after_draw rt).
Proof. reflexivity. Qed.

Lemma activity_sendDelayNotification_valid : forall request rt,
  NotificationService.validateRequest request = true ->
  Activities.sendDelayNotification request rt
  = (Ok {| NotificationResponse.success := true;
           NotificationResponse.messageId :=
             Some ("msg_" ++ Number_toString (now rt) ++ "_"
                   ++ random_suffix (random rt (draws rt)));
           NotificationResponse.error := None |},
     after_draw rt).
Proof.
  intros request rt H. unfold Activities.sendDelayNotification. rewrite H. reflexivity.
Qed.

Lemma activity_sendDelayNotification_invalid : forall request rt,
  NotificationService.validateRequest request = false ->
  Activities.sendDelayNotification request rt
  = (Raise (ErrorObj "Invalid notification request: Missing required fields"), rt).
Proof.
  intros request rt H. unfold Activities.sendDelayNotification. rewrite H. reflexivity.
Qed.

(** X10: the email activity returns [success: true] with an id that starts
    with ["msg_"], taking one draw of [Math.random()], for a request whose
    address holds an ["@"], whose subject and message are not empty and
    whose delay is above 0; for every other request it throws the
    invalid-request error and leaves the runtime as it was. *)
Theorem email_activity_rejects_exactly_invalid :
  forall request rt,
    (includes (NotificationRequest.customerEmail request) "@" = true
     /\ NotificationRequest.subject request <> EmptyString
     /\ NotificationRequest.message request <> EmptyString
     /\ 0 < NotificationRequest.delayMinutes request ->
     exists id,
       Activities.sendDelayNotification request rt
       = (Ok {| NotificationResponse.success := true;
                NotificationResponse.messageId := Some id;
                NotificationResponse.error := None |},
          after_draw rt)
       /\ prefix "msg_" id = true)
    /\ (~ (includes (NotificationRequest.customerEmail request) "@" = true
           /\ NotificationRequest.subject request <> EmptyString
           /\ NotificationRequest.message request <> EmptyString
           /\ 0 < NotificationRequest.delayMinutes request) ->
        Activities.sendDelayNotification request rt
        = (Raise (ErrorObj "Invalid notification request: Missing required fields"),
           rt)).
Proof.
  intros request rt. split; intro H.
  - apply validateRequest_true_iff in H.
    rewrite (activity_sendDelayNotification_valid request rt H).
    eexists. split; [reflexivity | apply prefix_append].
  - apply activity_sendDelayNotification_invalid.
    destruct (NotificationService.validateRequest request) eqn:E; [|reflexivity].
    exfalso. apply H. apply validateRequest_true_iff. exact E.
Qed.

(** X11: the SMS activity validates nothing and never throws: for every
    request it returns [success: true] with an id that starts with ["sms_"];
    what it returns does not depend on the request; and the SMS text depends
    on the delay of the request alone, not on its message. *)
Theorem sms_activity_ignores_request :
  forall request request' rt,
    Activities.sendSMSNotification request rt
    = Activities.sendSMSNotification request' rt
    /\ (exists id,
          Activities.sendSMSNotification request rt
          = (Ok {| NotificationResponse.success := true;
                   NotificationResponse.messageId := Some id;
                   NotificationResponse.error := None |},
             after_draw rt)
          /\ prefix "sms_" id = true)
    /\ (NotificationRequest.delayMinutes request
        = NotificationRequest.delayMinutes request' ->
        NotificationService.createSMSMessage request
        = NotificationService.createSMSMessage request').
Proof.
  intros request request' rt. split; [|split].
  - rewrite !activity_sendSMSNotification_returns. reflexivity.
  - rewrite activity_sendSMSNotification_returns. eexists.
    split; [reflexivity | apply prefix_append].
  - intro H. unfold NotificationService.createSMSMessage. rewrite H. reflexivity.
Qed.

(* ================================================================= *)
(** ** The mock traffic data *)

(** X12: for a draw of [Math.random()] below 1, the traffic service returns
    a snapshot with a delay from 0 to 59, a normal duration of 120, a
    current duration of 120 plus the delay (179 at most) and the route it
    was asked about, and takes exactly one draw. *)
Theorem mock_traffic_bounds :
  forall route rt,
    (random rt (draws rt) < 2 ^ 53)%N ->
    exists trafficData,
      TrafficService.getTrafficData route rt = (Ok trafficData, after_draw rt)
      /\ 0 <= TrafficData.estimatedDelayMinutes trafficData <= 59
      /\ TrafficData.normalDurationMinutes trafficData = 120
      /\ TrafficData.currentDurationMinutes trafficData
         = 120 + TrafficData.estimatedDelayMinutes trafficData
      /\ TrafficData.currentDurationMinutes trafficData <= 179
      /\ TrafficData.route trafficData = route.
Proof.
  intros route rt Hm.
  rewrite getTrafficData_returns, getMockTrafficData_returns.
  eexists. split; [reflexivity|].
  cbn [TrafficData.estimatedDelayMinutes TrafficData.normalDurationMinutes
       TrafficData.currentDurationMinutes TrafficData.route].
  pose proof (floor_scaled_nonneg (random rt (draws rt)) 60 ltac:(lia)).
  pose proof (floor_scaled_below_60 (random rt (draws rt)) Hm).
  repeat split; lia.
Qed.

Lemma mock_traffic_bounds_witness :
  exists trafficData,
    TrafficService.getTrafficData Scenario.route (Scenario.runtime 0 (2 ^ 52 + 2 ^ 51))
    = (Ok trafficData, after_draw (Scenario.runtime 0 (2 ^ 52 + 2 ^ 51)))
    /\ 0 <= TrafficData.estimatedDelayMinutes trafficData <= 59
    /\ TrafficData.normalDurationMinutes trafficData = 120
    /\ TrafficData.currentDurationMinutes trafficData
       = 120 + TrafficData.estimatedDelayMinutes trafficData
    /\ TrafficData.currentDurationMinutes trafficData <= 179
    /\ TrafficData.route trafficData = Scenario.route.
Proof.
  apply (mock_traffic_bounds Scenario.route (Scenario.runtime 0 (2 ^ 52 + 2 ^ 51))).
  reflexivity.
Defined.

(** X13: the condition of a mock snapshot is light exactly for a draw below
    1/4, moderate from 1/4 to below 1/2, heavy from 1/2 to below 3/4, and
    severe from 3/4 on (draws as mantissas over [2^53]). *)
Theorem mock_condition_quartiles :
  forall route rt trafficData,
    fst (TrafficService.getMockTrafficData route rt) = Ok trafficData ->
    (TrafficData.trafficCondition trafficData = light
       <-> (random rt (draws rt) < 2 ^ 51)%N)
    /\ (TrafficData.trafficCondition trafficData = moderate
       <-> (2 ^ 51 <= random rt (draws rt) < 2 ^ 52)%N)
    /\ (TrafficData.trafficCondition trafficData = heavy
       <-> (2 ^ 52 <= random rt (draws rt) < 3 * 2 ^ 51)%N)
    /\ (TrafficData.trafficCondition trafficData = severe
       <-> (3 * 2 ^ 51 <= random rt (draws rt))%N).
Proof.
  intros route rt td. rewrite getMockTrafficData_returns. cbn [fst].
  intro H. apply Ok_injective in H. subst td.
  cbn [TrafficData.trafficCondition].
  unfold TrafficService.trafficConditionFor.
  generalize (random rt (draws rt)). intro m.
  pose proof (floor_scaled_60_quarter m 1 ltac:(lia)) as H15.
  pose proof (floor_scaled_60_quarter m 2 ltac:(lia)) as H30.
  pose proof (floor_scaled_60_quarter m 3 ltac:(lia)) as H45.
  change (15 * 1) with 15 in H15. change (15 * 2) with 30 in H30.
  change (15 * 3) with 45 in H45.
  change (1 * 2 ^ 51) with (Z.of_N (2 ^ 51)) in H15.
  change (2 * 2 ^ 51) with (Z.of_N (2 ^ 52)) in H30.
  change (3 * 2 ^ 51) with (Z.of_N (3 * 2 ^ 51)) in H45.
  generalize dependent (floor_scaled m 60). intros d H15 H30 H45.
  change (2 ^ 52)%N with (2 * 2 ^ 51)%N in *.
  generalize dependent (2 ^ 51)%N. intros q H15 H30 H45.
  destruct (d <? 15) eqn:B15;
    [apply Z.ltb_lt in B15 | apply Z.ltb_ge in B15];
  destruct (d <? 30) eqn:B30;
    [apply Z.ltb_lt in B30 | apply Z.ltb_ge in B30
     | apply Z.ltb_lt in B30 | apply Z.ltb_ge in B30];
  destruct (d <? 45) eqn:B45;
    try apply Z.ltb_lt in B45; try apply Z.ltb_ge in B45;
  repeat split; intros; try discriminate; try reflexivity; lia.
Qed.

Lemma mock_condition_quartiles_witness :
  TrafficData.trafficCondition (Scenario.snapshot 45) = severe
  <-> (3 * 2 ^ 51 <= 2 ^ 52 + 2 ^ 51)%N.
Proof.
  apply (mock_condition_quartiles Scenario.route
           (Scenario.runtime 0 (2 ^ 52 + 2 ^ 51)) (Scenario.snapshot 45)).
  reflexivity.
Defined.

(* ================================================================= *)
(** ** The AI activity *)

Lemma generateAIMessage_valid : forall aiService request rt,
  AIService.validateRequest aiService request = true ->
  Activities.generateAIMessage aiService request rt
  = AIService.generateDelayMessage aiService request rt.
Proof.
  intros aiService request rt H. unfold Activities.generateAIMessage.
  rewrite H. cbn [negb]. unfold try_catch, bind, ret, throw.
  destruct (AIService.generateDelayMessage aiService request rt) as [[a | e] rt'];
    reflexivity.
Qed.

(** X14: for every AI service, the AI activity ends exactly as the service
    ends, response or thrown error, when the service accepts the request;
    when it does not, the activity throws the invalid-request error and the
    service is not run. *)
Theorem generateAIMessage_is_transparent :
  forall aiService request rt,
    (AIService.validateRequest aiService request = true ->
     Activities.generateAIMessage aiService request rt
     = AIService.generateDelayMessage aiService request rt)
    /\ (AIService.validateRequest aiService request = false ->
        Activities.generateAIMessage aiService request rt
        = (Raise (ErrorObj "Invalid AI message request: Missing required fields"),
           rt)).
Proof.
  intros aiService request rt. split.
  - apply generateAIMessage_valid.
  - intro H. unfold Activities.generateAIMessage. rewrite H. reflexivity.
Qed.

(* ================================================================= *)
(** ** The configuration *)

Lemma parse_digits_acc : forall d acc,
  Config.parse_digits 10 (NilEmpty.string_of_uint d) (N.pos acc) true
  = Some (N.pos (Pos.of_uint_acc d acc)).
Proof.
  induction d; intro acc;
    cbn [NilEmpty.string_of_uint Config.parse_digits Pos.of_uint_acc];
    try reflexivity;
    (change (Config.digit_value _) with (Some 0%N)
     || change (Config.digit_value _) with (Some 1%N)
     || change (Config.digit_value _) with (Some 2%N)
     || change (Config.digit_value _) with (Some 3%N)
     || change (Config.digit_value _) with (Some 4%N)
     || change (Config.digit_value _) with (Some 5%N)
     || change (Config.digit_value _) with (Some 6%N)
     || change (Config.digit_value _) with (Some 7%N)
     || change (Config.digit_value _) with (Some 8%N)
     || change (Config.digit_value _) with (Some 9%N));
    cbn [N.ltb N.compare Pos.compare Pos.compare_cont];
    rewrite <- IHd; f_equal; lia.
Qed.

Lemma parse_digits_zero : forall d,
  Config.parse_digits 10 (NilEmpty.string_of_uint d) 0 true
  = Some (Pos.of_uint d).
Proof.
  induction d; cbn [NilEmpty.string_of_uint Config.parse_digits Pos.of_uint];
    try reflexivity;
    try (rewrite <- parse_digits_acc; reflexivity).
  exact IHd.
Qed.

Lemma parse_digits_fresh : forall d,
  d <> Decimal.Nil ->
  Config.parse_digits 10 (NilEmpty.string_of_uint d) 0 false
  = Some (Pos.of_uint d).
Proof.
  destruct d; intro H; try congruence;
    cbn [NilEmpty.string_of_uint Config.parse_digits Pos.of_uint];
    try (rewrite <- parse_digits_acc; reflexivity).
  apply parse_digits_zero.
Qed.

(** [parseInt] reads a string of decimal digits, signed or not, as the
    number it spells. *)
Lemma parseInt_unsigned : forall d,
  d <> Decimal.Nil ->
  Config.parseInt (NilEmpty.string_of_uint d)
  = Some (round_to_double (Z.of_N (Pos.of_uint d)))
  /\ Config.parseInt (String "-" (NilEmpty.string_of_uint d))
     = Some (- round_to_double (Z.of_N (Pos.of_uint d))).
Proof.
  intros d H. pose proof (parse_digits_fresh d H) as Hparse.
  destruct d as [|l|l|l|l|l|l|l|l|l|l]; try congruence;
    try (unfold Config.parseInt;
         cbn [NilEmpty.string_of_uint trimStart] in *;
         change (is_whitespace _) with false; cbv iota;
         cbv beta iota zeta; rewrite Hparse;
         split; f_equal; lia).
  destruct l; unfold Config.parseInt;
    cbn [NilEmpty.string_of_uint trimStart] in *;
    change (is_whitespace _) with false; cbv beta iota zeta;
    rewrite Hparse; split; f_equal; lia.
Qed.

Lemma string_of_uint_nonnil : forall d,
  d <> Decimal.Nil -> NilZero.string_of_uint d = NilEmpty.string_of_uint d.
Proof. destruct d; intro H; [congruence | reflexivity ..]. Qed.

Lemma Number_toString_not_empty : forall n, Number_toString n <> EmptyString.
Proof.
  intros [|p|p]; unfold Number_toString; cbn [Z.to_int NilZero.string_of_int];
    try discriminate.
  rewrite (string_of_uint_nonnil _ (Unsigned.to_uint_nonnil p)).
  pose proof (Unsigned.to_uint_nonnil p).
  destruct (Pos.to_uint p); try congruence; discriminate.
Qed.

(** An integer up to [2^53] is a double. *)
Lemma round_to_double_exact : forall n,
  0 <= n <= 2 ^ 53 -> round_to_double n = n.
Proof.
  intros n Hn.
  destruct (Z.eq_dec n (2 ^ 53)) as [-> | Hne]; [reflexivity|].
  unfold round_to_double.
  destruct (Z.eq_dec n 0) as [-> | Hnz]; [reflexivity|].
  assert (Z.log2 n < 53) by (apply Z.log2_lt_pow2; lia).
  destruct (Z.log2 n - 52 <=? 0) eqn:Hk; [reflexivity|].
  apply Z.leb_gt in Hk. lia.
Qed.

(** The decimal of an integer up to [2^53] in magnitude reads back as that
    integer. *)
Lemma parseInt_Number_toString : forall n,
  - 2 ^ 53 <= n <= 2 ^ 53 ->
  Config.parseInt (Number_toString n) = Some n.
Proof.
  intros [|p|p] Hn; unfold Number_toString; cbn [Z.to_int NilZero.string_of_int].
  - reflexivity.
  - rewrite (string_of_uint_nonnil _ (Unsigned.to_uint_nonnil p)).
    rewrite (proj1 (parseInt_unsigned _ (Unsigned.to_uint_nonnil p))).
    rewrite DecimalPos.Unsigned.of_to.
    rewrite round_to_double_exact by (cbn [Z.of_N]; lia). reflexivity.
  - rewrite (string_of_uint_nonnil _ (Unsigned.to_uint_nonnil p)).
    rewrite (proj2 (parseInt_unsigned _ (Unsigned.to_uint_nonnil p))).
    rewrite DecimalPos.Unsigned.of_to.
    rewrite round_to_double_exact by (cbn [Z.of_N]; lia). reflexivity.
Qed.

Lemma or_default_set : forall s fallback,
  s <> EmptyString -> Config.or_default (Some s) fallback = s.
Proof. intros [|c s] fallback H; [congruence | reflexivity]. Qed.

(** X17: the configuration does not depend on the variable
    [OPENAI_API_KEY]: two environments that agree on every other variable
    give the same configuration, and the OpenAI key is always the Google
    Maps key. *)
Theorem config_never_reads_openai_variable :
  forall env env',
    (forall name, name <> "OPENAI_API_KEY" -> env name = env' name) ->
    Config.getConfig env = Config.getConfig env'
    /\ Config.openaiApiKey (Config.getConfig env)
       = Config.googleMapsApiKey (Config.getConfig env).
Proof.
  intros env env' H. split; [|reflexivity].
  unfold Config.getConfig.
  rewrite !(H _) by discriminate. reflexivity.
Qed.

Lemma config_never_reads_openai_variable_witness :
  Config.getConfig (Config.only "OPENAI_API_KEY" "sk-live")
  = Config.getConfig (fun _ => None).
Proof.
  apply (config_never_reads_openai_variable
           (Config.only "OPENAI_API_KEY" "sk-live") (fun _ => None)).
  intros name Hname. unfold Config.only.
  destruct (String.eqb_spec name "OPENAI_API_KEY"); [contradiction | reflexivity].
Defined.

(** X18: when every variable is unset or empty, the configuration is the
    one of the defaults, with a threshold of 30. *)
Theorem config_defaults :
  forall env,
    (forall name, env name = None \/ env name = Some "") ->
    Config.getConfig env
    = {| Config.openaiApiKey := "demo-key";
         Config.googleMapsApiKey := "demo-key";
         Config.sendgridApiKey := "demo-key";
         Config.temporalAddress := "localhost:7233";
         Config.temporalNamespace := "default";
         Config.delayThresholdMinutes := Some 30;
         Config.fromEmail := "noreply@freightnotifications.com";
         Config.customerEmail := "customer@example.com" |}.
Proof.
  intros env H. unfold Config.getConfig.
  assert (Hdefault : forall name fallback,
             Config.or_default (env name) fallback = fallback)
    by (intros name fallback; destruct (H name) as [-> | ->]; reflexivity).
  rewrite !Hdefault. reflexivity.
Qed.

Lemma config_defaults_witness :
  Config.getAppConfig (Config.only "CUSTOMER_EMAIL" "")
  = (Some 30, "customer@example.com").
Proof.
  unfold Config.getAppConfig.
  rewrite (config_defaults (Config.only "CUSTOMER_EMAIL" "")).
  - reflexivity.
  - intro name. unfold Config.only.
    destruct (String.eqb name "CUSTOMER_EMAIL"); [right | left]; reflexivity.
Defined.

(** X19: a threshold given in [DELAY_THRESHOLD_MINUTES] as the decimal of
    an integer of magnitude up to [2^53] is read back as that integer; from
    there on the number read is the nearest double, so that
    ["9007199254740993"] is read as 9007199254740992. *)
Theorem config_threshold_reads_decimal :
  forall env n,
    - 2 ^ 53 <= n <= 2 ^ 53 ->
    env "DELAY_THRESHOLD_MINUTES" = Some (Number_toString n) ->
    Config.delayThresholdMinutes (Config.getConfig env) = Some n
    /\ Config.delayThresholdMinutes
         (Config.getConfig (Config.only "DELAY_THRESHOLD_MINUTES" "9007199254740993"))
       = Some 9007199254740992.
Proof.
  intros env n Hn H. split; [|reflexivity].
  unfold Config.getConfig. cbn [Config.delayThresholdMinutes].
  rewrite H, (or_default_set _ _ (Number_toString_not_empty n)).
  apply parseInt_Number_toString. exact Hn.
Qed.

Lemma config_threshold_reads_decimal_witness :
  Config.delayThresholdMinutes
    (Config.getConfig (Config.only "DELAY_THRESHOLD_MINUTES" "45"))
  = Some 45.
Proof.
  apply (proj1 (config_threshold_reads_decimal
                  (Config.only "DELAY_THRESHOLD_MINUTES" "45") 45
                  ltac:(lia) eq_refl)).
Defined.

(** X20: a [DELAY_THRESHOLD_MINUTES] that starts with a character that is
    neither white space, nor a sign, nor a decimal digit gives [NaN] as the
    threshold: the configuration does not fall back to 30. *)
Theorem config_threshold_not_a_number :
  forall env c rest,
    env "DELAY_THRESHOLD_MINUTES" = Some (String c rest) ->
    is_whitespace c = false ->
    c <> "+"%char -> c <> "-"%char ->
    (forall d, Config.digit_value c = Some d -> (10 <= d)%N) ->
    Config.delayThresholdMinutes (Config.getConfig env) = None.
Proof.
  intros env c rest H Hws Hplus Hminus Hdigit.
  unfold Config.getConfig. cbn [Config.delayThresholdMinutes].
  rewrite H. cbn [Config.or_default truthy].
  unfold Config.parseInt. cbn [trimStart]. rewrite Hws.
  assert (Hzero : c <> "0"%char).
  { intros ->. specialize (Hdigit 0%N eq_refl). lia. }
  assert (Hparse : Config.parse_digits 10 (String c rest) 0 false = None).
  { cbn [Config.parse_digits].
    destruct (Config.digit_value c) as [d|]; [|reflexivity].
    specialize (Hdigit d eq_refl). apply N.ltb_ge in Hdigit.
    rewrite Hdigit. reflexivity. }
  destruct c as [[|] [|] [|] [|] [|] [|] [|] [|]];
    try congruence; cbv beta iota zeta; rewrite Hparse; reflexivity.
Qed.

Lemma config_threshold_not_a_number_witness :
  Config.delayThresholdMinutes
    (Config.getConfig (Config.only "DELAY_THRESHOLD_MINUTES" "thirty"))
  = None.
Proof.
  apply (config_threshold_not_a_number
           (Config.only "DELAY_THRESHOLD_MINUTES" "thirty") "t"%char "hirty").
  - reflexivity.
  - reflexivity.
  - discriminate.
  - discriminate.
  - intros d Hd. vm_compute in Hd. injection Hd as <-. vm_compute. discriminate.
Defined.
